(** * weather.py: the NWS alert and forecast tools

    A shallow embedding of [weather.py]: the HTTP fetcher
    [make_nws_request], the alert formatter [format_alert] and the two tool
    handlers [get_alerts] and [get_forecast], followed by the properties the
    specification states about them.

    Python values are an inductive type, exceptions are an error monad, and
    the network is an oracle answering each request of an invocation. *)

From Stdlib Require Import ZArith List String Ascii Bool Lia.
From Stdlib Require Import DecimalString Floats.SpecFloat.
Import ListNotations.

Local Open Scope string_scope.
Local Open Scope Z_scope.
Set Warnings "-register-all".

(* ================================================================== *)
(** ** Python values *)
(* ================================================================== *)

(** What [response.json()] can return, and hence every value the handlers
    touch.  A [dict] keeps its insertion order, so it is an association
    list; [dict_find] reads the first binding of a key (a decoded document
    has one binding per key).  A [str] is its UTF-8 byte string. *)
Inductive value : Type :=
| VNone
| VBool (b : bool)
| VInt (z : Z)
| VFloat (f : spec_float)
| VStr (s : string)
| VList (items : list value)
| VDict (kvs : list (string * value)).

Fixpoint dict_find (key : string) (kvs : list (string * value)) : option value :=
  match kvs with
  | [] => None
  | (k, v) :: rest => if String.eqb key k then Some v else dict_find key rest
  end.

(** Exceptions.  The first three are raised by the handlers' own lookups,
    the next three inside the fetcher's [try] block; the last two derive
    from [BaseException] only, so [except Exception] lets them through. *)
Inductive transport_failure : Type :=
| DnsFailure
| ConnectFailure
| RequestTimeout.

Inductive exn : Type :=
| KeyError
| TypeError
| AttributeError
| HTTPStatusError
| TransportError (why : transport_failure)
| JSONDecodeError
| CancelledError
| KeyboardInterrupt.

Definition is_Exception (e : exn) : bool :=
  match e with
  | CancelledError | KeyboardInterrupt => false
  | _ => true
  end.

(** ** The error monad *)

Inductive result (A : Type) : Type :=
| Ok (a : A)
| Raise (e : exn).

Arguments Ok {A} a.
Arguments Raise {A} e.

Definition bind {A B : Type} (c : result A) (k : A -> result B) : result B :=
  match c with
  | Ok a => k a
  | Raise e => Raise e
  end.

Declare Scope py_scope.
Delimit Scope py_scope with py.
Notation "x <- c ;; k" := (bind c (fun x => k))
  (at level 61, c at next level, right associativity) : py_scope.
Local Open Scope py_scope.

(** [try: body / except Exception: handler]. *)
Definition try_except_Exception {A : Type} (body handler : result A) : result A :=
  match body with
  | Ok a => Ok a
  | Raise e => if is_Exception e then handler else Raise e
  end.

(** A list comprehension [[f(x) for x in items]]: left to right, stopping
    at the first exception. *)
Fixpoint comprehension {A B : Type} (f : A -> result B) (items : list A)
  : result (list B) :=
  match items with
  | [] => Ok []
  | x :: rest =>
      y <- f x ;;
      ys <- comprehension f rest ;;
      Ok (y :: ys)
  end.

(** A [for] loop whose body may [return]: the body either hands the loop
    state to the next iteration or leaves the function with a value. *)
Inductive flow (S R : Type) : Type :=
| Next (s : S)
| Return (r : R).

Arguments Next {S R} s.
Arguments Return {S R} r.

Fixpoint for_each {A S R : Type} (body : A -> S -> result (flow S R))
  (items : list A) (s : S) : result (flow S R) :=
  match items with
  | [] => Ok (Next s)
  | x :: rest =>
      r <- body x s ;;
      match r with
      | Next s' => for_each body rest s'
      | Return v => Ok (Return v)
      end
  end.

(* ================================================================== *)
(** ** The interpreter's built-in operations *)
(* ================================================================== *)

(** What the embedding takes from the interpreter without defining it:
    the text of a float, the quoted form of a [str] shown inside a
    container, and the exception of subscripting a [dict] with a slice
    ([TypeError] before Python 3.12, [KeyError] from 3.12 on). *)
Record runtime : Type := {
  float_repr : spec_float -> string;
  str_repr : string -> string;
  dict_slice_error : exn
}.

Definition nl : string := String (ascii_of_nat 10) "".

(** U+00B0 DEGREE SIGN, as its two UTF-8 bytes. *)
Definition degree : string :=
  String (ascii_of_nat 194) (String (ascii_of_nat 176) "").

Definition int_str (z : Z) : string := NilZero.string_of_int (Z.to_int z).

Section Builtins.

Variable rt : runtime.

(** [repr(v)]. *)
Fixpoint py_repr (v : value) : string :=
  match v with
  | VNone => "None"
  | VBool true => "True"
  | VBool false => "False"
  | VInt z => int_str z
  | VFloat f => float_repr rt f
  | VStr s => str_repr rt s
  | VList items => "[" ++ String.concat ", " (map py_repr items) ++ "]"
  | VDict kvs =>
      "{" ++ String.concat ", "
               (map (fun kv => str_repr rt (fst kv) ++ ": " ++ py_repr (snd kv)) kvs)
          ++ "}"
  end.

(** [str(v)], which is what an f-string field [{v}] inserts: a [str] is
    inserted as it is, every other value as its [repr]. *)
Definition py_str (v : value) : string :=
  match v with
  | VStr s => s
  | _ => py_repr v
  end.

(** [v[start:5]] with [start] omitted. *)
Definition py_slice5 (v : value) : result value :=
  match v with
  | VList items => Ok (VList (firstn 5 items))
  | VStr s => Ok (VStr (String.substring 0 5 s))
  | VDict _ => Raise (dict_slice_error rt)
  | _ => Raise TypeError
  end.

End Builtins.

(** Truth value of [v], as [if not v] tests it. *)
Definition truthy (v : value) : bool :=
  match v with
  | VNone => false
  | VBool b => b
  | VInt z => negb (z =? 0)
  | VFloat (S754_zero _) => false
  | VFloat _ => true
  | VStr s => negb (String.eqb s "")
  | VList items => match items with [] => false | _ :: _ => true end
  | VDict kvs => match kvs with [] => false | _ :: _ => true end
  end.

Definition is_substring (needle s : string) : bool :=
  match String.index 0 needle s with
  | Some _ => true
  | None => false
  end.

(** [needle in v] for a [str] needle: key membership in a [dict], element
    membership in a [list], substring in a [str]; other values are not
    containers. *)
Definition py_contains (needle : string) (v : value) : result bool :=
  match v with
  | VDict kvs => Ok (match dict_find needle kvs with Some _ => true | None => false end)
  | VList items =>
      Ok (existsb (fun x => match x with VStr s => String.eqb needle s | _ => false end) items)
  | VStr s => Ok (is_substring needle s)
  | _ => Raise TypeError
  end.

(** [v[key]] for a [str] key: a [dict] looks the key up, every other value
    rejects a [str] subscript. *)
Definition py_getitem (v : value) (key : string) : result value :=
  match v with
  | VDict kvs =>
      match dict_find key kvs with
      | Some x => Ok x
      | None => Raise KeyError
      end
  | _ => Raise TypeError
  end.

(** [v.get(key, default)]: only a [dict] has the method. *)
Definition py_get (v : value) (key : string) (default : value) : result value :=
  match v with
  | VDict kvs =>
      match dict_find key kvs with
      | Some x => Ok x
      | None => Ok default
      end
  | _ => Raise AttributeError
  end.

(** The items a [for] visits: a [list]'s elements, a [str]'s one-character
    strings (bytes here, code points in Python: the count differs on
    non-ASCII text, the kind of item does not), a [dict]'s keys. *)
Definition py_iter (v : value) : result (list value) :=
  match v with
  | VList items => Ok items
  | VStr s => Ok (map (fun c => VStr (String c "")) (list_ascii_of_string s))
  | VDict kvs => Ok (map (fun kv => VStr (fst kv)) kvs)
  | _ => Raise TypeError
  end.

(* ================================================================== *)
(** ** Constants *)
(* ================================================================== *)

Definition NWS_API_BASE : string := "https://api.weather.gov".
Definition USER_AGENT : string := "weather-app/1.0".

(* ================================================================== *)
(** ** The HTTP fetcher *)
(* ================================================================== *)

(** A response as the fetcher uses it: its status code, and what calling
    [response.json()] does (the decoded body, or the decoder's exception). *)
Record response : Type := {
  status_code : Z;
  json : result value
}.

Record request : Type := {
  req_url : value;
  req_headers : list (string * string);
  req_timeout : Z
}.

(** The network: what [await client.get(...)] does for the [k]-th request
    of an invocation, a response or an exception.  Indexing by [k] lets two
    requests for one URL be answered differently. *)
Definition network : Type := nat -> request -> result response.

(** httpx's [response.raise_for_status()]: returns on a 2xx status and
    raises [HTTPStatusError] on any other. *)
Definition raise_for_status (r : response) : result unit :=
  if (200 <=? status_code r) && (status_code r <=? 299)
  then Ok tt
  else Raise HTTPStatusError.

Definition nws_request (url : value) : request :=
  {| req_url := url;
     req_headers := [("User-Agent", USER_AGENT); ("Accept", "application/geo+json")];
     req_timeout := 30 |}.

(** Lines 27-32: the request, the status check and the decoding, inside
    [try ... except Exception].  The client's context manager of line 26,
    around the [try], is not part of the model: what building, entering or
    closing the client may raise is left out. *)
Definition make_nws_request (net : network) (k : nat) (url : value) : result value :=
  try_except_Exception
    (response <- net k (nws_request url) ;;
     _ <- raise_for_status response ;;
     json response)
    (Ok VNone).

(* ================================================================== *)
(** ** The alert formatter and [get_alerts] *)
(* ================================================================== *)

Definition alerts_separator : string := nl ++ "---" ++ nl.

Section Tools.

Variable rt : runtime.
Variable net : network.

Definition format_alert (feature : value) : result string :=
  properties <- py_get feature "properties" (VDict []) ;;
  event <- py_get properties "event" (VStr "Unknown Event") ;;
  area <- py_get properties "areaDesc" (VStr "Unknown Area") ;;
  severity <- py_get properties "severity" (VStr "Unknown Severity") ;;
  description <- py_get properties "description" (VStr "No description available.") ;;
  instructions <-
    py_get properties "instruction" (VStr "No specific instructions provided.") ;;
  let alert_message :=
    "**" ++ py_str rt event ++ "**" ++ nl ++
    "*Area:* " ++ py_str rt area ++ nl ++ nl ++
    "*Severity:* " ++ py_str rt severity ++ nl ++
    py_str rt description ++ nl ++ nl ++
    "**Instructions:** " ++ py_str rt instructions in
  Ok alert_message.

Definition alerts_url (state : string) : string :=
  NWS_API_BASE ++ "/alerts/active/area/" ++ state.

Definition get_alerts (state : string) : result value :=
  let url := alerts_url state in
  data <- make_nws_request net 0 (VStr url) ;;
  (* if not data or 'features' not in data *)
  unusable <-
    (if negb (truthy data) then Ok true
     else (present <- py_contains "features" data ;; Ok (negb present))) ;;
  if unusable : bool then Ok (VStr "Unable to fetch alerts or no alerts found.")
  else
    features <- py_getitem data "features" ;;
    if negb (truthy features) then Ok (VStr "No active alerts for this state.")
    else
      features <- py_getitem data "features" ;;
      items <- py_iter features ;;
      alerts <- comprehension format_alert items ;;
      Ok (VStr (String.concat alerts_separator alerts)).

(* ================================================================ *)
(** ** [get_forecast] *)
(* ================================================================ *)

(** Lines 106-115: the text built for one period. *)
Definition format_period (period : value) : result string :=
  name <- py_getitem period "name" ;;
  temperature <- py_getitem period "temperature" ;;
  temperatureUnit <- py_getitem period "temperatureUnit" ;;
  let temp := py_str rt temperature ++ degree ++ py_str rt temperatureUnit in
  windSpeed <- py_getitem period "windSpeed" ;;
  windDirection <- py_getitem period "windDirection" ;;
  let wind := py_str rt windSpeed ++ " " ++ py_str rt windDirection in
  foreast_text <- py_getitem period "detailedForecast" ;;
  let forecast :=
    "**" ++ py_str rt name ++ "**" ++ nl ++
    "- Temperature: " ++ temp ++ nl ++
    "- Wind: " ++ wind ++ nl ++
    "- Forecast: " ++ py_str rt foreast_text ++ nl in
  Ok forecast.

(** The body of the loop: lines 106-117, with the [return] of line 117
    inside it. *)
Definition forecast_body (period : value) (forecasts : list string)
  : result (flow (list string) value) :=
  forecast <- format_period period ;;
  let forecasts := (forecasts ++ [forecast])%list in
  Ok (Return (VStr (String.concat alerts_separator forecasts))).

Definition points_url (latitude longitude : spec_float) : string :=
  NWS_API_BASE ++ "/points/" ++ float_repr rt latitude ++ "," ++ float_repr rt longitude.

Definition get_forecast (latitude longitude : spec_float) : result value :=
  points_data <- make_nws_request net 0 (VStr (points_url latitude longitude)) ;;
  if negb (truthy points_data)
  then Ok (VStr "Unable to fetch forecast data for this location.")
  else
    properties <- py_getitem points_data "properties" ;;
    forecast_url <- py_getitem properties "forecast" ;;
    forecast_data <- make_nws_request net 1 forecast_url ;;
    if negb (truthy forecast_data)
    then Ok (VStr "Unable to fetch detailed forecast.")
    else
      properties <- py_getitem forecast_data "properties" ;;
      periods <- py_getitem properties "periods" ;;
      first_five <- py_slice5 rt periods ;;
      items <- py_iter first_five ;;
      outcome <- for_each forecast_body items [] ;;
      match outcome with
      | Return v => Ok v
      | Next _ => Ok VNone   (* the function body ends without a return *)
      end.

End Tools.

(* ================================================================== *)
(** ** The specification's vocabulary *)
(* ================================================================== *)

(** The fetcher's "Absent" result is Python's [None]. *)
Definition Absent : value := VNone.

(** [s1 + sep + s2 + ... + sep + sn], the sum the specification writes for
    [get_alerts], associated to the left as Python evaluates it. *)
Definition spec_joined (sep : string) (texts : list string) : string :=
  match texts with
  | [] => ""
  | s :: rest => fold_left (fun acc t => (acc ++ sep) ++ t) rest s
  end.

(** The alert template of the specification, section 4.2. *)
Definition spec_alert_template (event area severity description instructions : string)
  : string :=
  "**" ++ event ++ "**" ++ nl ++
  "*Area:* " ++ area ++ nl ++
  nl ++
  "*Severity:* " ++ severity ++ nl ++
  description ++ nl ++
  nl ++
  "**Instructions:** " ++ instructions.

(** The period template of the specification, section 4.4 item 7: four
    lines, written with the line breaks between them and nothing after the
    last. *)
Definition spec_period_template
  (name temperature temperatureUnit windSpeed windDirection detailedForecast : string)
  : string :=
  "**" ++ name ++ "**" ++ nl ++
  "- Temperature: " ++ temperature ++ degree ++ temperatureUnit ++ nl ++
  "- Wind: " ++ windSpeed ++ " " ++ windDirection ++ nl ++
  "- Forecast: " ++ detailedForecast.

(** The text shown for a field of an alert: the field's [str] when the key
    is there, the placeholder when it is missing. *)
Definition field_text (rt : runtime) (props : list (string * value))
  (key default : string) : string :=
  match dict_find key props with
  | Some v => py_str rt v
  | None => default
  end.

(** The properties a feature offers the formatter: those of its
    [properties] member when that is an object, none when the member is
    missing; a [properties] member of another kind offers nothing usable. *)
Definition alert_properties (kvs : list (string * value))
  : option (list (string * value)) :=
  match dict_find "properties" kvs with
  | None => Some []
  | Some (VDict props) => Some props
  | Some _ => None
  end.

(** The ways the specification lets a request fail: a transport error, a
    status outside 2xx, a body that does not decode. *)
Inductive network_failure (net : network) (k : nat) (url : value) : Prop :=
| failure_transport (why : transport_failure) :
    net k (nws_request url) = Raise (TransportError why) ->
    network_failure net k url
| failure_status (r : response) :
    net k (nws_request url) = Ok r ->
    ~ (200 <= status_code r <= 299) ->
    network_failure net k url
| failure_decode (r : response) :
    net k (nws_request url) = Ok r ->
    json r = Raise JSONDecodeError ->
    network_failure net k url.

(** Both fetches of [get_forecast] went through: the points document
    names a forecast URL, and the document fetched from that URL is one the
    handler goes on with (not Absent, not empty). *)
Definition forecast_document (rt : runtime) (net : network)
  (latitude longitude : spec_float) (forecast_data : value) : Prop :=
  exists points_data properties forecast_url,
    make_nws_request net 0 (VStr (points_url rt latitude longitude)) = Ok points_data /\
    py_getitem points_data "properties" = Ok properties /\
    py_getitem properties "forecast" = Ok forecast_url /\
    make_nws_request net 1 forecast_url = Ok forecast_data /\
    truthy forecast_data = true.

(** What is left of [get_forecast] once both fetches went through: lines
    103-117. *)
Definition render_periods (rt : runtime) (forecast_data : value) : result value :=
  properties <- py_getitem forecast_data "properties" ;;
  periods <- py_getitem properties "periods" ;;
  first_five <- py_slice5 rt periods ;;
  items <- py_iter first_five ;;
  outcome <- for_each (forecast_body rt) items [] ;;
  match outcome with
  | Return v => Ok v
  | Next _ => Ok VNone
  end.

(** The [properties.forecast] field of a points document, when it has one:
    the document and its [properties] member are objects and the member
    holds [forecast]. *)
Definition forecast_field (points_data : value) : option value :=
  match points_data with
  | VDict kvs =>
      match dict_find "properties" kvs with
      | Some (VDict props) => dict_find "forecast" props
      | _ => None
      end
  | _ => None
  end.

(** The exception of reading a [properties.forecast] that is not there:
    [KeyError] where an object lacks the key, [TypeError] where what is
    subscripted is no object. *)
Definition forecast_lookup_error (points_data : value) : exn :=
  match points_data with
  | VDict kvs =>
      match dict_find "properties" kvs with
      | None | Some (VDict _) => KeyError
      | Some _ => TypeError
      end
  | _ => TypeError
  end.

(* ================================================================== *)
(** ** Worked inputs *)
(* ================================================================== *)

(** A runtime for the worked examples below.  Its float text is exact on
    the zeros, the infinities and NaN, its quoting on printable ASCII
    without quote or backslash; no example shows another float, or any
    string inside a container. *)
Definition example_runtime : runtime :=
  {| float_repr := fun f =>
       match f with
       | S754_zero false => "0.0"
       | S754_zero true => "-0.0"
       | S754_infinity false => "inf"
       | S754_infinity true => "-inf"
       | S754_nan => "nan"
       | S754_finite _ _ _ => "?"
       end;
     str_repr := fun s => "'" ++ s ++ "'";
     dict_slice_error := TypeError |}.

Definition zero : spec_float := S754_zero false.

Definition http_ok (body : value) : result response :=
  Ok {| status_code := 200; json := Ok body |}.

Definition not_found : result response :=
  Ok {| status_code := 404; json := Ok (VDict [("title", VStr "Not Found")]) |}.

Definition not_json : result response :=
  Ok {| status_code := 200; json := Raise JSONDecodeError |}.

(** A network answering the first request with [first] and every later one
    with [later]. *)
Definition serve (first later : result response) : network :=
  fun k _ => match k with O => first | S _ => later end.

Definition flood_warning : value :=
  VDict [("properties",
          VDict [("event", VStr "Flood Warning");
                 ("areaDesc", VStr "Napa");
                 ("severity", VStr "Severe");
                 ("description", VStr "River rising.");
                 ("instruction", VStr "Move to higher ground.")])].

Definition bare_feature : value := VDict [].

Definition tonight : value :=
  VDict [("name", VStr "Tonight");
         ("temperature", VInt 54);
         ("temperatureUnit", VStr "F");
         ("windSpeed", VStr "5 mph");
         ("windDirection", VStr "NW");
         ("detailedForecast", VStr "Clear.")].

Definition tomorrow : value :=
  VDict [("name", VStr "Tomorrow");
         ("temperature", VInt 71);
         ("temperatureUnit", VStr "F");
         ("windSpeed", VStr "10 mph");
         ("windDirection", VStr "W");
         ("detailedForecast", VStr "Sunny.")].

Definition points_document : value :=
  VDict [("properties", VDict [("forecast", VStr "https://api.weather.gov/gridpoints/X/1,2/forecast")])].

Definition forecast_of (periods : list value) : value :=
  VDict [("properties", VDict [("periods", VList periods)])].

(** The keys a period is read for, in the order of lines 106-109. *)
Definition period_keys : list string :=
  ["name"; "temperature"; "temperatureUnit"; "windSpeed"; "windDirection";
   "detailedForecast"].

(** The keys an alert's properties are read for, lines 40-44. *)
Definition alert_keys : list string :=
  ["event"; "areaDesc"; "severity"; "description"; "instruction"].

(** The three messages the handlers return in place of a report. *)
Definition alerts_unavailable : string := "Unable to fetch alerts or no alerts found.".
Definition no_active_alerts : string := "No active alerts for this state.".
Definition points_unavailable : string := "Unable to fetch forecast data for this location.".
Definition forecast_unavailable : string := "Unable to fetch detailed forecast.".

(* ================================================================== *)
(** ** Auxiliary facts *)
(* ================================================================== *)

Lemma append_assoc (a b c : string) : (a ++ b) ++ c = a ++ (b ++ c).
Proof.
  induction a as [| ch a IH]; simpl.
  - reflexivity.
  - now rewrite IH.
Qed.

(** Folding [(acc + sep) + t] from the left builds what [sep.join] builds. *)
Lemma fold_joined (sep : string) (rest : list string) (s : string) :
  fold_left (fun acc t => (acc ++ sep) ++ t) rest s = String.concat sep (s :: rest).
Proof.
  revert s.
  induction rest as [| t rest IH]; intros s.
  - reflexivity.
  - cbn [fold_left]. rewrite IH.
    cbn [String.concat].
    destruct rest as [| u rest]; now rewrite !append_assoc.
Qed.

Lemma spec_joined_join (sep : string) (texts : list string) :
  spec_joined sep texts = String.concat sep texts.
Proof.
  destruct texts as [| s rest].
  - reflexivity.
  - apply fold_joined.
Qed.

Lemma comprehension_Forall2 {A B : Type} (f : A -> result B)
  (items : list A) (outs : list B) :
  Forall2 (fun x y => f x = Ok y) items outs ->
  comprehension f items = Ok outs.
Proof.
  induction 1 as [| x y items outs Hx _ IH]; cbn [comprehension].
  - reflexivity.
  - now rewrite Hx, IH.
Qed.

Lemma dict_find_truthy (key : string) (kvs : list (string * value)) (v : value) :
  dict_find key kvs = Some v -> truthy (VDict kvs) = true.
Proof. destruct kvs; [discriminate | reflexivity]. Qed.

(** A request that fails in one of the specified ways is Absent. *)
Lemma network_failure_Absent (net : network) (k : nat) (url : value) :
  network_failure net k url -> make_nws_request net k url = Ok Absent.
Proof.
  unfold make_nws_request.
  intros [why H | r H Hstatus | r H Hjson]; rewrite H; cbn [bind].
  - reflexivity.
  - unfold raise_for_status.
    destruct ((200 <=? status_code r) && (status_code r <=? 299)) eqn:E.
    + apply andb_true_iff in E as [E1 E2].
      apply Z.leb_le in E1. apply Z.leb_le in E2. lia.
    + reflexivity.
  - destruct (raise_for_status r) as [[] | e] eqn:E; cbn [bind].
    + now rewrite Hjson.
    + unfold raise_for_status in E.
      destruct ((200 <=? status_code r) && (status_code r <=? 299));
        inversion E; reflexivity.
Qed.

(* ================================================================== *)
(** ** [get_alerts] *)
(* ================================================================== *)

(** C2, as amended.  When the fetched document's [features] member is a
    non-empty sequence [f1, ..., fn] and the Alert Formatter yields the text
    [ti] for each [fi], [get_alerts] returns [t1 + sep + ... + sep + tn] with [sep]
    the separator line: every feature is formatted, in order, and the
    texts are joined by the separator. *)
Theorem get_alerts_joins_every_feature
  (rt : runtime) (net : network) (state : string)
  (kvs : list (string * value)) (f : value) (fs : list value) (texts : list string) :
  make_nws_request net 0 (VStr (alerts_url state)) = Ok (VDict kvs) ->
  dict_find "features" kvs = Some (VList (f :: fs)) ->
  Forall2 (fun feature text => format_alert rt feature = Ok text) (f :: fs) texts ->
  get_alerts rt net state = Ok (VStr (spec_joined alerts_separator texts)).
Proof.
  intros Hfetch Hfeatures Htexts.
  unfold get_alerts. rewrite Hfetch. cbn [bind].
  rewrite (dict_find_truthy _ _ _ Hfeatures).
  cbn [negb py_contains py_getitem bind]. rewrite Hfeatures.
  cbn [negb bind truthy py_iter].
  rewrite (comprehension_Forall2 _ _ _ Htexts). cbn [bind].
  now rewrite spec_joined_join.
Qed.

Lemma get_alerts_joins_every_feature_witness :
  get_alerts example_runtime
    (serve (http_ok (VDict [("features", VList [flood_warning; bare_feature])]))
           (Raise (TransportError ConnectFailure)))
    "CA"
  = Ok (VStr (spec_joined alerts_separator
         [spec_alert_template "Flood Warning" "Napa" "Severe" "River rising."
            "Move to higher ground.";
          spec_alert_template "Unknown Event" "Unknown Area" "Unknown Severity"
            "No description available." "No specific instructions provided."])).
Proof.
  apply (get_alerts_joins_every_feature example_runtime _ "CA"
           [("features", VList [flood_warning; bare_feature])]
           flood_warning [bare_feature]).
  - reflexivity.
  - reflexivity.
  - repeat constructor.
Defined.

(** C2 as stated fails: [features] is a non-empty sequence, its second
    feature is one the formatter rejects, and [get_alerts] raises instead
    of returning a string. *)
Lemma get_alerts_no_string_for_rejected_feature :
  make_nws_request
    (serve (http_ok (VDict [("features",
                             VList [flood_warning; VDict [("properties", VNone)]])]))
           (Raise (TransportError ConnectFailure)))
    0 (VStr (alerts_url "CA"))
  = Ok (VDict [("features", VList [flood_warning; VDict [("properties", VNone)]])]) /\
  get_alerts example_runtime
    (serve (http_ok (VDict [("features",
                             VList [flood_warning; VDict [("properties", VNone)]])]))
           (Raise (TransportError ConnectFailure)))
    "CA"
  = Raise AttributeError.
Proof. split; reflexivity. Qed.

(** C3.  When the fetch result is Absent, or is a JSON object without a
    [features] member, [get_alerts] returns exactly
    "Unable to fetch alerts or no alerts found.". *)
Theorem get_alerts_unable
  (rt : runtime) (net : network) (state : string) (data : value) :
  make_nws_request net 0 (VStr (alerts_url state)) = Ok data ->
  data = Absent \/ (exists kvs, data = VDict kvs /\ dict_find "features" kvs = None) ->
  get_alerts rt net state = Ok (VStr "Unable to fetch alerts or no alerts found.").
Proof.
  intros Hfetch Hdata.
  unfold get_alerts. rewrite Hfetch. cbn [bind].
  destruct Hdata as [-> | (kvs & -> & Hmissing)].
  - reflexivity.
  - destruct (negb (truthy (VDict kvs))).
    + reflexivity.
    + cbn [py_contains bind]. now rewrite Hmissing.
Qed.

Lemma get_alerts_unable_witness :
  get_alerts example_runtime
    (serve (http_ok (VDict [("title", VStr "none")])) (Raise (TransportError ConnectFailure)))
    "ZZ"
  = Ok (VStr "Unable to fetch alerts or no alerts found.").
Proof.
  apply (get_alerts_unable example_runtime _ "ZZ" (VDict [("title", VStr "none")])).
  - reflexivity.
  - right. exists [("title", VStr "none")]. split; reflexivity.
Defined.

(** C4.  When the fetched JSON object has a [features] member that is an
    empty sequence, [get_alerts] returns exactly
    "No active alerts for this state.". *)
Theorem get_alerts_no_active_alerts
  (rt : runtime) (net : network) (state : string) (kvs : list (string * value)) :
  make_nws_request net 0 (VStr (alerts_url state)) = Ok (VDict kvs) ->
  dict_find "features" kvs = Some (VList []) ->
  get_alerts rt net state = Ok (VStr "No active alerts for this state.").
Proof.
  intros Hfetch Hfeatures.
  unfold get_alerts. rewrite Hfetch. cbn [bind].
  rewrite (dict_find_truthy _ _ _ Hfeatures).
  cbn [negb py_contains py_getitem bind]. rewrite Hfeatures.
  reflexivity.
Qed.

Lemma get_alerts_no_active_alerts_witness :
  get_alerts example_runtime
    (serve (http_ok (VDict [("features", VList [])])) (Raise (TransportError ConnectFailure)))
    "CA"
  = Ok (VStr "No active alerts for this state.").
Proof.
  apply (get_alerts_no_active_alerts example_runtime _ "CA" [("features", VList [])]).
  - reflexivity.
  - reflexivity.
Defined.

(* ================================================================== *)
(** ** [format_alert] *)
(* ================================================================== *)

Lemma py_get_field_text (rt : runtime) (props : list (string * value))
  (key default : string) :
  exists v, py_get (VDict props) key (VStr default) = Ok v /\
            py_str rt v = field_text rt props key default.
Proof.
  unfold py_get, field_text.
  destruct (dict_find key props) as [v |].
  - exists v. split; reflexivity.
  - exists (VStr default). split; reflexivity.
Qed.


(** Outside the objects whose [properties] member is missing or an object,
    the formatter raises [AttributeError]. *)
Lemma format_alert_rejects (rt : runtime) (feature : value) :
  (forall kvs, feature = VDict kvs -> alert_properties kvs = None) ->
  format_alert rt feature = Raise AttributeError.
Proof.
  intros H. unfold format_alert.
  destruct feature as [| b | z | f | s | items | kvs]; try reflexivity.
  specialize (H kvs eq_refl). unfold alert_properties in H.
  cbn [py_get].
  destruct (dict_find "properties" kvs) as [[| b | z | f | s | items | props] |];
    try discriminate; reflexivity.
Qed.




(* ================================================================== *)
(** ** [get_forecast] *)
(* ================================================================== *)

Lemma py_getitem_truthy (v : value) (key : string) (x : value) :
  py_getitem v key = Ok x -> truthy v = true.
Proof.
  destruct v as [| b | z | f | s | items | kvs]; try discriminate.
  cbn [py_getitem].
  destruct (dict_find key kvs) eqn:E; [| discriminate].
  intros _. exact (dict_find_truthy _ _ _ E).
Qed.

Lemma length_append (a b : string) :
  String.length (a ++ b) = (String.length a + String.length b)%nat.
Proof.
  induction a as [| ch a IH]; simpl.
  - reflexivity.
  - now rewrite IH.
Qed.

Lemma get_forecast_after_fetches (rt : runtime) (net : network)
  (latitude longitude : spec_float) (forecast_data : value) :
  forecast_document rt net latitude longitude forecast_data ->
  get_forecast rt net latitude longitude = render_periods rt forecast_data.
Proof.
  intros (points_data & properties & forecast_url & Hpoints & Hprops & Hurl & Hdoc & Husable).
  unfold get_forecast.
  rewrite Hpoints. cbn [bind].
  rewrite (py_getitem_truthy _ _ _ Hprops). cbn [negb].
  rewrite Hprops. cbn [bind].
  rewrite Hurl. cbn [bind].
  rewrite Hdoc. cbn [bind].
  rewrite Husable. reflexivity.
Qed.

(** The loop leaves the function in its first iteration: whatever follows
    the first item is never looked at. *)
Lemma for_each_forecast_body_first (rt : runtime)
  (period : value) (rest : list value) (forecasts : list string) :
  for_each (forecast_body rt) (period :: rest) forecasts = forecast_body rt period forecasts.
Proof.
  cbn [for_each]. unfold forecast_body.
  destruct (format_period rt period); reflexivity.
Qed.

Lemma render_periods_first (rt : runtime) (forecast_data properties period : value)
  (rest : list value) (text : string) :
  py_getitem forecast_data "properties" = Ok properties ->
  py_getitem properties "periods" = Ok (VList (period :: rest)) ->
  format_period rt period = Ok text ->
  render_periods rt forecast_data = Ok (VStr text).
Proof.
  intros Hprops Hperiods Htext.
  unfold render_periods.
  rewrite Hprops. cbn [bind]. rewrite Hperiods.
  cbn [bind py_slice5 firstn py_iter].
  rewrite for_each_forecast_body_first.
  unfold forecast_body. rewrite Htext. reflexivity.
Qed.

(** The text of a period that has its six fields: the four template lines,
    each ended by a line break. *)
Lemma format_period_template (rt : runtime) (fields : list (string * value))
  (name temperature temperatureUnit windSpeed windDirection detailedForecast : value) :
  dict_find "name" fields = Some name ->
  dict_find "temperature" fields = Some temperature ->
  dict_find "temperatureUnit" fields = Some temperatureUnit ->
  dict_find "windSpeed" fields = Some windSpeed ->
  dict_find "windDirection" fields = Some windDirection ->
  dict_find "detailedForecast" fields = Some detailedForecast ->
  format_period rt (VDict fields)
  = Ok (spec_period_template (py_str rt name) (py_str rt temperature)
          (py_str rt temperatureUnit) (py_str rt windSpeed) (py_str rt windDirection)
          (py_str rt detailedForecast) ++ nl).
Proof.
  intros Hn Ht Hu Hs Hd Hf.
  unfold format_period. cbn [py_getitem].
  rewrite Hn, Ht, Hu, Hs, Hd, Hf. cbn [bind].
  unfold spec_period_template.
  f_equal. now rewrite !append_assoc.
Qed.

(** Joining two or more texts with the separator line gives more than the
    first text. *)
Lemma joined_longer (first second : string) (others : list string) :
  (String.length first
   < String.length (String.concat alerts_separator (first :: second :: others)))%nat.
Proof.
  cbn [String.concat].
  rewrite !length_append.
  change (String.length alerts_separator) with 5%nat.
  lia.
Qed.

Lemma example_forecast_document (periods : list value) :
  forecast_document example_runtime
    (serve (http_ok points_document) (http_ok (forecast_of periods)))
    zero zero (forecast_of periods).
Proof.
  exists points_document,
    (VDict [("forecast", VStr "https://api.weather.gov/gridpoints/X/1,2/forecast")]),
    (VStr "https://api.weather.gov/gridpoints/X/1,2/forecast").
  repeat split; reflexivity.
Qed.

(** C1.  When both fetches went through and the forecast document's
    [properties.periods] is a list of N >= 1 periods whose first period is
    well formed, [get_forecast] returns the rendering of that first period
    and nothing else: the loop returns in its first iteration.  In
    particular, with N >= 2 the result is not the joined renderings of the
    first min(N,5) periods. *)
Theorem get_forecast_first_period_only
  (rt : runtime) (net : network) (latitude longitude : spec_float)
  (forecast_data properties period : value) (rest : list value) (text : string) :
  forecast_document rt net latitude longitude forecast_data ->
  py_getitem forecast_data "properties" = Ok properties ->
  py_getitem properties "periods" = Ok (VList (period :: rest)) ->
  format_period rt period = Ok text ->
  get_forecast rt net latitude longitude = Ok (VStr text) /\
  (forall texts,
      (2 <= List.length texts)%nat ->
      Forall2 (fun p t => format_period rt p = Ok t) (firstn 5 (period :: rest)) texts ->
      get_forecast rt net latitude longitude
      <> Ok (VStr (String.concat alerts_separator texts))).
Proof.
  intros Hdoc Hprops Hperiods Htext.
  assert (Hresult : get_forecast rt net latitude longitude = Ok (VStr text)).
  { rewrite (get_forecast_after_fetches _ _ _ _ _ Hdoc).
    exact (render_periods_first _ _ _ _ _ _ Hprops Hperiods Htext). }
  split; [exact Hresult |].
  intros texts Hlen Hall. rewrite Hresult.
  destruct texts as [| t1 [| t2 others]]; cbn [List.length] in Hlen; try lia.
  cbn [firstn] in Hall. inversion Hall as [| ? ? ? ? Hfirst _]; subst.
  rewrite Htext in Hfirst. inversion Hfirst; subst t1.
  intros Heq.
  assert (Hsame : text = String.concat alerts_separator (text :: t2 :: others))
    by congruence.
  pose proof (joined_longer text t2 others) as Hlonger.
  apply (f_equal String.length) in Hsame. lia.
Qed.

Lemma get_forecast_first_period_only_witness :
  get_forecast example_runtime
    (serve (http_ok points_document) (http_ok (forecast_of [tonight; tomorrow])))
    zero zero
  = Ok (VStr (spec_period_template "Tonight" "54" "F" "5 mph" "NW" "Clear." ++ nl)).
Proof.
  apply (get_forecast_first_period_only example_runtime _ zero zero
           (forecast_of [tonight; tomorrow])
           (VDict [("periods", VList [tonight; tomorrow])])
           tonight [tomorrow]).
  - apply example_forecast_document.
  - reflexivity.
  - reflexivity.
  - reflexivity.
Defined.

(** C9, as amended.  The period [get_forecast] renders is rendered as the
    four lines of the template, each filled with the text of its fields,
    followed by one line break after the Forecast line. *)
Theorem get_forecast_period_template
  (rt : runtime) (net : network) (latitude longitude : spec_float)
  (forecast_data properties : value) (fields : list (string * value)) (rest : list value)
  (name temperature temperatureUnit windSpeed windDirection detailedForecast : value) :
  forecast_document rt net latitude longitude forecast_data ->
  py_getitem forecast_data "properties" = Ok properties ->
  py_getitem properties "periods" = Ok (VList (VDict fields :: rest)) ->
  dict_find "name" fields = Some name ->
  dict_find "temperature" fields = Some temperature ->
  dict_find "temperatureUnit" fields = Some temperatureUnit ->
  dict_find "windSpeed" fields = Some windSpeed ->
  dict_find "windDirection" fields = Some windDirection ->
  dict_find "detailedForecast" fields = Some detailedForecast ->
  get_forecast rt net latitude longitude
  = Ok (VStr (spec_period_template (py_str rt name) (py_str rt temperature)
                (py_str rt temperatureUnit) (py_str rt windSpeed) (py_str rt windDirection)
                (py_str rt detailedForecast) ++ nl)).
Proof.
  intros Hdoc Hprops Hperiods Hn Ht Hu Hs Hd Hf.
  rewrite (get_forecast_after_fetches _ _ _ _ _ Hdoc).
  apply (render_periods_first _ _ _ _ _ _ Hprops Hperiods).
  now apply format_period_template.
Qed.

Lemma get_forecast_period_template_witness :
  get_forecast example_runtime
    (serve (http_ok points_document) (http_ok (forecast_of [tomorrow])))
    zero zero
  = Ok (VStr (spec_period_template "Tomorrow" "71" "F" "10 mph" "W" "Sunny." ++ nl)).
Proof.
  apply (get_forecast_period_template example_runtime _ zero zero
           (forecast_of [tomorrow]) (VDict [("periods", VList [tomorrow])])
           [("name", VStr "Tomorrow"); ("temperature", VInt 71);
            ("temperatureUnit", VStr "F"); ("windSpeed", VStr "10 mph");
            ("windDirection", VStr "W"); ("detailedForecast", VStr "Sunny.")]
           [] (VStr "Tomorrow") (VInt 71) (VStr "F") (VStr "10 mph") (VStr "W")
           (VStr "Sunny."));
    solve [apply example_forecast_document | reflexivity].
Defined.

(** C9 as stated fails: the rendering of a period is not the bare template,
    a line break follows its last line. *)
Lemma get_forecast_not_bare_template :
  get_forecast example_runtime
    (serve (http_ok points_document) (http_ok (forecast_of [tonight])))
    zero zero
  <> Ok (VStr (spec_period_template "Tonight" "54" "F" "5 mph" "NW" "Clear.")).
Proof. vm_compute. discriminate. Qed.

(** C10.  When both fetches went through and [properties.periods] is an
    empty list, the loop body never runs and [get_forecast] returns [None]:
    not a string, against its declared return type [str]. *)
Theorem get_forecast_empty_periods
  (rt : runtime) (net : network) (latitude longitude : spec_float)
  (forecast_data properties : value) :
  forecast_document rt net latitude longitude forecast_data ->
  py_getitem forecast_data "properties" = Ok properties ->
  py_getitem properties "periods" = Ok (VList []) ->
  get_forecast rt net latitude longitude = Ok VNone /\
  (forall s, get_forecast rt net latitude longitude <> Ok (VStr s)).
Proof.
  intros Hdoc Hprops Hperiods.
  assert (Hresult : get_forecast rt net latitude longitude = Ok VNone).
  { rewrite (get_forecast_after_fetches _ _ _ _ _ Hdoc).
    unfold render_periods. rewrite Hprops. cbn [bind]. rewrite Hperiods.
    reflexivity. }
  split; [exact Hresult |].
  intros s. rewrite Hresult. discriminate.
Qed.

Lemma get_forecast_empty_periods_witness :
  get_forecast example_runtime
    (serve (http_ok points_document) (http_ok (forecast_of [])))
    zero zero
  = Ok VNone.
Proof.
  apply (get_forecast_empty_periods example_runtime _ zero zero
           (forecast_of []) (VDict [("periods", VList [])])).
  - apply example_forecast_document.
  - reflexivity.
  - reflexivity.
Defined.

(** C6.  When the points fetch is Absent, [get_forecast] returns exactly
    "Unable to fetch forecast data for this location."; when the points
    fetch gave a document naming a forecast URL and the fetch of that URL
    is Absent, it returns exactly "Unable to fetch detailed forecast.". *)
Theorem get_forecast_unable
  (rt : runtime) (net : network) (latitude longitude : spec_float) :
  (make_nws_request net 0 (VStr (points_url rt latitude longitude)) = Ok Absent ->
   get_forecast rt net latitude longitude
   = Ok (VStr "Unable to fetch forecast data for this location.")) /\
  (forall points_data properties forecast_url,
      make_nws_request net 0 (VStr (points_url rt latitude longitude)) = Ok points_data ->
      py_getitem points_data "properties" = Ok properties ->
      py_getitem properties "forecast" = Ok forecast_url ->
      make_nws_request net 1 forecast_url = Ok Absent ->
      get_forecast rt net latitude longitude
      = Ok (VStr "Unable to fetch detailed forecast.")).
Proof.
  split.
  - intros Hpoints. unfold get_forecast. rewrite Hpoints. reflexivity.
  - intros points_data properties forecast_url Hpoints Hprops Hurl Hdoc.
    unfold get_forecast. rewrite Hpoints. cbn [bind].
    rewrite (py_getitem_truthy _ _ _ Hprops). cbn [negb].
    rewrite Hprops. cbn [bind]. rewrite Hurl. cbn [bind]. rewrite Hdoc.
    reflexivity.
Qed.

Lemma get_forecast_unable_witness :
  get_forecast example_runtime
    (serve (Raise (TransportError RequestTimeout)) (http_ok (forecast_of [tonight])))
    zero zero
  = Ok (VStr "Unable to fetch forecast data for this location.") /\
  get_forecast example_runtime
    (serve (http_ok points_document) (Raise (TransportError RequestTimeout)))
    zero zero
  = Ok (VStr "Unable to fetch detailed forecast.").
Proof.
  split.
  - apply (proj1 (get_forecast_unable example_runtime
                    (serve (Raise (TransportError RequestTimeout))
                           (http_ok (forecast_of [tonight])))
                    zero zero)).
    reflexivity.
  - apply (proj2 (get_forecast_unable example_runtime
                    (serve (http_ok points_document)
                           (Raise (TransportError RequestTimeout)))
                    zero zero)
             points_document
             (VDict [("forecast", VStr "https://api.weather.gov/gridpoints/X/1,2/forecast")])
             (VStr "https://api.weather.gov/gridpoints/X/1,2/forecast"));
      reflexivity.
Defined.

(** C8, as amended.  When the points fetch returns a truthy document (not
    [None], not empty or otherwise falsy) that leaves out
    [properties.forecast], [get_forecast] fails with the error of that
    lookup, which leaves the handler: [KeyError] when the document is an
    object whose [properties] member is missing or is an object without
    [forecast], [TypeError] when the document or its [properties] member is
    no object.  No sentinel message is returned. *)
Theorem get_forecast_missing_forecast_url
  (rt : runtime) (net : network) (latitude longitude : spec_float)
  (points_data : value) :
  make_nws_request net 0 (VStr (points_url rt latitude longitude)) = Ok points_data ->
  truthy points_data = true ->
  forecast_field points_data = None ->
  get_forecast rt net latitude longitude = Raise (forecast_lookup_error points_data) /\
  (forall s, get_forecast rt net latitude longitude <> Ok (VStr s)).
Proof.
  intros Hpoints Htruthy Homits.
  assert (Hresult : get_forecast rt net latitude longitude
                    = Raise (forecast_lookup_error points_data)).
  { unfold get_forecast. rewrite Hpoints. cbn [bind].
    rewrite Htruthy. cbn [negb].
    destruct points_data as [| b | z | f | s | items | kvs]; try reflexivity.
    cbn [py_getitem forecast_field forecast_lookup_error] in *.
    destruct (dict_find "properties" kvs)
      as [[| b | z | f | s | items | props] |]; try reflexivity.
    cbn [bind py_getitem]. now rewrite Homits. }
  split; [exact Hresult |].
  intros s. rewrite Hresult. discriminate.
Qed.

Lemma get_forecast_missing_forecast_url_witness :
  get_forecast example_runtime
    (serve (http_ok (VDict [("properties", VDict [("gridId", VStr "MTR")])]))
           (http_ok (forecast_of [tonight])))
    zero zero
  = Raise KeyError /\
  get_forecast example_runtime
    (serve (http_ok (VDict [("properties", VNone)])) (http_ok (forecast_of [tonight])))
    zero zero
  = Raise TypeError.
Proof.
  split.
  - apply (get_forecast_missing_forecast_url example_runtime _ zero zero
             (VDict [("properties", VDict [("gridId", VStr "MTR")])]));
      reflexivity.
  - apply (get_forecast_missing_forecast_url example_runtime _ zero zero
             (VDict [("properties", VNone)]));
      reflexivity.
Defined.

(** C8 as stated fails: the points fetch succeeds with the empty object
    [{}], which leaves out [properties.forecast], and the handler returns
    the sentinel message instead of failing. *)
Lemma get_forecast_empty_points_document :
  make_nws_request (serve (http_ok (VDict [])) (http_ok (forecast_of [tonight])))
    0 (VStr (points_url example_runtime zero zero))
  = Ok (VDict []) /\
  forecast_field (VDict []) = None /\
  get_forecast example_runtime
    (serve (http_ok (VDict [])) (http_ok (forecast_of [tonight])))
    zero zero
  = Ok (VStr "Unable to fetch forecast data for this location.").
Proof. repeat split. Qed.

(* ================================================================== *)
(** ** The fetcher's failures *)
(* ================================================================== *)

(** C7.  A request that meets a transport error (DNS, connection,
    timeout), a status outside 2xx or a body that does not decode yields
    Absent, whichever it was; and a handler whose request fails so returns
    one of its messages: no exception leaves [get_alerts] or
    [get_forecast] because of it. *)
Theorem network_failures_are_absorbed (rt : runtime) (net : network) :
  (forall k url, network_failure net k url -> make_nws_request net k url = Ok Absent) /\
  (forall state,
      network_failure net 0 (VStr (alerts_url state)) ->
      get_alerts rt net state = Ok (VStr "Unable to fetch alerts or no alerts found.")) /\
  (forall latitude longitude,
      network_failure net 0 (VStr (points_url rt latitude longitude)) ->
      get_forecast rt net latitude longitude
      = Ok (VStr "Unable to fetch forecast data for this location.")) /\
  (forall latitude longitude points_data properties forecast_url,
      make_nws_request net 0 (VStr (points_url rt latitude longitude)) = Ok points_data ->
      py_getitem points_data "properties" = Ok properties ->
      py_getitem properties "forecast" = Ok forecast_url ->
      network_failure net 1 forecast_url ->
      get_forecast rt net latitude longitude
      = Ok (VStr "Unable to fetch detailed forecast.")).
Proof.
  repeat split.
  - intros k url. apply network_failure_Absent.
  - intros state Hfail.
    unfold get_alerts. now rewrite (network_failure_Absent _ _ _ Hfail).
  - intros latitude longitude Hfail.
    unfold get_forecast. now rewrite (network_failure_Absent _ _ _ Hfail).
  - intros latitude longitude points_data properties forecast_url
      Hpoints Hprops Hurl Hfail.
    unfold get_forecast. rewrite Hpoints. cbn [bind].
    rewrite (py_getitem_truthy _ _ _ Hprops). cbn [negb].
    rewrite Hprops. cbn [bind]. rewrite Hurl. cbn [bind].
    now rewrite (network_failure_Absent _ _ _ Hfail).
Qed.

Lemma network_failures_are_absorbed_witness :
  make_nws_request (serve (Raise (TransportError DnsFailure)) not_found)
    0 (VStr (alerts_url "CA"))
  = Ok Absent /\
  get_alerts example_runtime (serve not_found not_found) "CA"
  = Ok (VStr "Unable to fetch alerts or no alerts found.") /\
  get_forecast example_runtime (serve not_json not_found) zero zero
  = Ok (VStr "Unable to fetch forecast data for this location.") /\
  get_forecast example_runtime (serve (http_ok points_document) not_json) zero zero
  = Ok (VStr "Unable to fetch detailed forecast.").
Proof.
  split; [| split; [| split]].
  - apply (proj1 (network_failures_are_absorbed example_runtime
                    (serve (Raise (TransportError DnsFailure)) not_found))).
    apply (failure_transport _ _ _ DnsFailure). reflexivity.
  - apply (proj1 (proj2 (network_failures_are_absorbed example_runtime
                           (serve not_found not_found)))).
    apply (failure_status _ _ _
             {| status_code := 404; json := Ok (VDict [("title", VStr "Not Found")]) |}).
    + reflexivity.
    + cbn [status_code]. lia.
  - apply (proj1 (proj2 (proj2 (network_failures_are_absorbed example_runtime
                                  (serve not_json not_found))))).
    apply (failure_decode _ _ _ {| status_code := 200; json := Raise JSONDecodeError |});
      reflexivity.
  - apply (proj2 (proj2 (proj2 (network_failures_are_absorbed example_runtime
                                  (serve (http_ok points_document) not_json))))
             zero zero points_document
             (VDict [("forecast", VStr "https://api.weather.gov/gridpoints/X/1,2/forecast")])
             (VStr "https://api.weather.gov/gridpoints/X/1,2/forecast")).
    + reflexivity.
    + reflexivity.
    + reflexivity.
    + apply (failure_decode _ _ _ {| status_code := 200; json := Raise JSONDecodeError |});
        reflexivity.
Defined.

(* ================================================================== *)
(** ** Further properties of the fetcher *)
(* ================================================================== *)

Lemma raise_for_status_Ok (r : response) :
  200 <= status_code r <= 299 -> raise_for_status r = Ok tt.
Proof.
  intros [Hlo Hhi]. unfold raise_for_status.
  apply Z.leb_le in Hlo. apply Z.leb_le in Hhi.
  now rewrite Hlo, Hhi.
Qed.

Lemma raise_for_status_cases (r : response) :
  (200 <= status_code r <= 299 /\ raise_for_status r = Ok tt) \/
  (~ 200 <= status_code r <= 299 /\ raise_for_status r = Raise HTTPStatusError).
Proof.
  unfold raise_for_status.
  destruct (200 <=? status_code r) eqn:Hlo, (status_code r <=? 299) eqn:Hhi; cbn [andb];
    try apply Z.leb_le in Hlo; try apply Z.leb_le in Hhi;
    try apply Z.leb_gt in Hlo; try apply Z.leb_gt in Hhi;
    first [left; split; [lia | reflexivity] | right; split; [lia | reflexivity]].
Qed.

(** X1.  The fetcher returns a value other than [None] exactly when the
    request was answered with a 2xx status and the body decoded to that
    value: the decoded document is handed over unchanged, and nothing else
    makes the fetcher return a value other than [None]. *)
Theorem make_nws_request_returns_body
  (net : network) (k : nat) (url v : value) :
  v <> VNone ->
  (make_nws_request net k url = Ok v <->
   exists r, net k (nws_request url) = Ok r /\
             200 <= status_code r <= 299 /\
             json r = Ok v).
Proof.
  intros Hv. unfold make_nws_request. split.
  - destruct (net k (nws_request url)) as [r | e] eqn:Hnet; cbn [bind try_except_Exception].
    + destruct (raise_for_status_cases r) as [[Hst ->] | [Hst ->]];
        cbn [bind try_except_Exception is_Exception].
      * destruct (json r) as [w | e] eqn:Hjson; cbn [try_except_Exception].
        -- intros H. inversion H; subst w. now exists r.
        -- destruct (is_Exception e); intros H; inversion H; congruence.
      * intros H. inversion H; congruence.
    + destruct (is_Exception e); intros H; inversion H; congruence.
  - intros (r & Hnet & Hst & Hjson).
    rewrite Hnet. cbn [bind]. rewrite (raise_for_status_Ok r Hst). cbn [bind].
    now rewrite Hjson.
Qed.

Lemma make_nws_request_returns_body_witness :
  make_nws_request (serve (http_ok points_document) not_found) 0
    (VStr "https://api.weather.gov/points/0.0,0.0")
  = Ok points_document.
Proof.
  apply (proj2 (make_nws_request_returns_body
                  (serve (http_ok points_document) not_found) 0
                  (VStr "https://api.weather.gov/points/0.0,0.0") points_document
                  ltac:(discriminate))).
  exists {| status_code := 200; json := Ok points_document |}.
  split; [reflexivity | split; [cbn [status_code]; lia | reflexivity]].
Defined.

(** X2.  When the request or the decoding of a 2xx answer raises, the
    fetcher returns [None] if the exception derives from [Exception] and
    lets it through otherwise: [except Exception] does not hold back a
    cancellation or a keyboard interrupt. *)
Theorem make_nws_request_exception_filter
  (net : network) (k : nat) (url : value) (e : exn) :
  net k (nws_request url) = Raise e \/
  (exists r, net k (nws_request url) = Ok r /\
             200 <= status_code r <= 299 /\
             json r = Raise e) ->
  make_nws_request net k url = if is_Exception e then Ok VNone else Raise e.
Proof.
  unfold make_nws_request.
  intros [Hnet | (r & Hnet & Hst & Hjson)]; rewrite Hnet; cbn [bind].
  - reflexivity.
  - rewrite (raise_for_status_Ok r Hst). cbn [bind]. rewrite Hjson. reflexivity.
Qed.

Lemma make_nws_request_exception_filter_witness :
  make_nws_request (serve (Raise CancelledError) not_found) 0 (VStr "u")
  = Raise CancelledError /\
  make_nws_request (serve not_json not_found) 0 (VStr "u") = Ok VNone.
Proof.
  split.
  - apply (make_nws_request_exception_filter
             (serve (Raise CancelledError) not_found) 0 (VStr "u") CancelledError).
    left. reflexivity.
  - apply (make_nws_request_exception_filter
             (serve not_json not_found) 0 (VStr "u") JSONDecodeError).
    right. exists {| status_code := 200; json := Raise JSONDecodeError |}.
    split; [reflexivity | split; [cbn [status_code]; lia | reflexivity]].
Defined.

(* ================================================================== *)
(** ** Further properties of [format_alert] *)
(* ================================================================== *)

Lemma format_alert_on_properties (rt : runtime) (kvs props : list (string * value)) :
  alert_properties kvs = Some props ->
  format_alert rt (VDict kvs)
  = Ok (spec_alert_template
          (field_text rt props "event" "Unknown Event")
          (field_text rt props "areaDesc" "Unknown Area")
          (field_text rt props "severity" "Unknown Severity")
          (field_text rt props "description" "No description available.")
          (field_text rt props "instruction" "No specific instructions provided.")).
Proof.
  intros Hprops.
  assert (Hget : py_get (VDict kvs) "properties" (VDict []) = Ok (VDict props)).
  { unfold alert_properties in Hprops. cbn [py_get].
    destruct (dict_find "properties" kvs) as [[| b | z | f | s | items | props'] |];
      try discriminate; now inversion Hprops. }
  destruct (py_get_field_text rt props "event" "Unknown Event") as (e & He & <-).
  destruct (py_get_field_text rt props "areaDesc" "Unknown Area") as (a & Ha & <-).
  destruct (py_get_field_text rt props "severity" "Unknown Severity") as (s & Hs & <-).
  destruct (py_get_field_text rt props "description" "No description available.")
    as (d & Hd & <-).
  destruct (py_get_field_text rt props "instruction" "No specific instructions provided.")
    as (i & Hi & <-).
  unfold format_alert.
  rewrite Hget. cbn [bind].
  rewrite He, Ha, Hs, Hd, Hi. reflexivity.
Qed.

Lemma alert_properties_cases (feature : value) :
  (exists kvs props, feature = VDict kvs /\ alert_properties kvs = Some props) \/
  (forall kvs, feature = VDict kvs -> alert_properties kvs = None).
Proof.
  destruct feature as [| b | z | f | s | items | kvs];
    try (right; intros kvs' H; discriminate).
  destruct (alert_properties kvs) as [props |] eqn:E.
  - left. now exists kvs, props.
  - right. intros kvs' H. now inversion H; subst.
Qed.

Lemma format_alert_raises_AttributeError (rt : runtime) (feature : value) (e : exn) :
  format_alert rt feature = Raise e -> e = AttributeError.
Proof.
  destruct (alert_properties_cases feature) as [(kvs & props & -> & Hprops) | Hout].
  - rewrite (format_alert_on_properties rt kvs props Hprops). discriminate.
  - rewrite (format_alert_rejects rt feature Hout). intros H. now inversion H.
Qed.

(** X3.  [format_alert] returns a text exactly for the objects whose
    [properties] member is missing or an object, and on every other input
    the one exception it raises is [AttributeError]. *)
Theorem format_alert_domain (rt : runtime) (feature : value) :
  ((exists text, format_alert rt feature = Ok text) <->
   (exists kvs props, feature = VDict kvs /\ alert_properties kvs = Some props)) /\
  (forall e, format_alert rt feature = Raise e -> e = AttributeError).
Proof.
  destruct (alert_properties_cases feature) as [(kvs & props & -> & Hprops) | Hout].
  - pose proof (format_alert_on_properties rt kvs props Hprops) as Hok.
    split.
    + split; intros _; [now exists kvs, props | eauto].
    + intros e He. rewrite Hok in He. discriminate.
  - pose proof (format_alert_rejects rt feature Hout) as Hfail.
    split.
    + split.
      * intros (text & Htext). rewrite Hfail in Htext. discriminate.
      * intros (kvs & props & Hf & Hprops). rewrite (Hout kvs Hf) in Hprops. discriminate.
    + intros e He. rewrite Hfail in He. now inversion He.
Qed.

(** X4.  A field that is present is shown as it is, [null] included: with
    ["instruction": null] in its properties, an alert ends in
    "**Instructions:** None", not in the placeholder for a missing
    instruction. *)
Theorem format_alert_null_instruction
  (rt : runtime) (kvs props : list (string * value)) :
  alert_properties kvs = Some props ->
  dict_find "instruction" props = Some VNone ->
  format_alert rt (VDict kvs)
  = Ok (spec_alert_template
          (field_text rt props "event" "Unknown Event")
          (field_text rt props "areaDesc" "Unknown Area")
          (field_text rt props "severity" "Unknown Severity")
          (field_text rt props "description" "No description available.")
          "None").
Proof.
  intros Hprops Hnull.
  rewrite (format_alert_on_properties rt kvs props Hprops).
  unfold field_text at 5. now rewrite Hnull.
Qed.

Lemma format_alert_null_instruction_witness :
  format_alert example_runtime
    (VDict [("properties", VDict [("event", VStr "Frost"); ("instruction", VNone)])])
  = Ok (spec_alert_template "Frost" "Unknown Area" "Unknown Severity"
          "No description available." "None").
Proof.
  apply (format_alert_null_instruction example_runtime
           [("properties", VDict [("event", VStr "Frost"); ("instruction", VNone)])]
           [("event", VStr "Frost"); ("instruction", VNone)]).
  - reflexivity.
  - reflexivity.
Defined.

(** X5.  The text of an alert depends on nothing but the five fields read
    from its properties: two features that agree on [event], [areaDesc],
    [severity], [description] and [instruction] get the same text, whatever
    else they carry. *)
Theorem format_alert_reads_five_fields
  (rt : runtime) (kvs kvs' props props' : list (string * value)) :
  alert_properties kvs = Some props ->
  alert_properties kvs' = Some props' ->
  Forall (fun key => dict_find key props = dict_find key props') alert_keys ->
  format_alert rt (VDict kvs) = format_alert rt (VDict kvs').
Proof.
  intros Hprops Hprops' Hsame.
  rewrite (format_alert_on_properties rt kvs props Hprops).
  rewrite (format_alert_on_properties rt kvs' props' Hprops').
  unfold alert_keys in Hsame.
  repeat match goal with
         | H : Forall _ (_ :: _) |- _ => inversion H; clear H; subst
         end.
  unfold field_text.
  repeat match goal with
         | H : dict_find _ props = dict_find _ props' |- _ => rewrite H; clear H
         end.
  reflexivity.
Qed.

Lemma format_alert_reads_five_fields_witness :
  format_alert example_runtime (VDict [("properties", VDict [("event", VStr "Frost")])])
  = format_alert example_runtime
      (VDict [("id", VStr "urn:oid:1");
              ("properties", VDict [("sender", VStr "w-nws"); ("event", VStr "Frost")])]).
Proof.
  apply (format_alert_reads_five_fields example_runtime
           [("properties", VDict [("event", VStr "Frost")])]
           [("id", VStr "urn:oid:1");
            ("properties", VDict [("sender", VStr "w-nws"); ("event", VStr "Frost")])]
           [("event", VStr "Frost")]
           [("sender", VStr "w-nws"); ("event", VStr "Frost")]).
  - reflexivity.
  - reflexivity.
  - repeat constructor.
Defined.

Lemma format_alert_domain_witness :
  exists text, format_alert example_runtime flood_warning = Ok text.
Proof.
  apply (proj2 (proj1 (format_alert_domain example_runtime flood_warning))).
  eexists _, _. split; reflexivity.
Defined.

(* ================================================================== *)
(** ** Further properties of [get_alerts] *)
(* ================================================================== *)

Lemma make_nws_request_same_answer (net net' : network) (k : nat) (url : value) :
  net k (nws_request url) = net' k (nws_request url) ->
  make_nws_request net k url = make_nws_request net' k url.
Proof. unfold make_nws_request. now intros ->. Qed.

Lemma comprehension_Ok_Forall2 {A B : Type} (f : A -> result B)
  (items : list A) (outs : list B) :
  comprehension f items = Ok outs ->
  Forall2 (fun x y => f x = Ok y) items outs.
Proof.
  revert outs.
  induction items as [| x items IH]; intros outs; cbn [comprehension].
  - intros H. inversion H. constructor.
  - destruct (f x) as [y |] eqn:Hx; cbn [bind]; [| discriminate].
    destruct (comprehension f items) as [ys |]; cbn [bind]; [| discriminate].
    intros H. inversion H; subst. constructor; auto.
Qed.

(** A comprehension raises what its first failing item raises. *)
Lemma comprehension_Raise {A B : Type} (f : A -> result B) (items : list A) (e : exn) :
  comprehension f items = Raise e -> exists x, In x items /\ f x = Raise e.
Proof.
  induction items as [| x items IH]; cbn [comprehension].
  - discriminate.
  - destruct (f x) as [y | e'] eqn:Hx; cbn [bind].
    + destruct (comprehension f items) as [ys | e'']; cbn [bind]; [discriminate |].
      intros H. inversion H; subst e''.
      destruct (IH eq_refl) as (x' & Hin & Hx'). exists x'. split; [now right | assumption].
    + intros H. inversion H; subst e'. exists x. split; [now left | assumption].
Qed.

Lemma comprehension_In_Raise {A B : Type} (f : A -> result B) (items : list A) (x : A) :
  In x items -> (exists e, f x = Raise e) -> exists e, comprehension f items = Raise e.
Proof.
  induction items as [| y items IH]; intros Hin Hx.
  - contradiction.
  - cbn [comprehension].
    destruct (f y) as [out | e] eqn:Hy; cbn [bind].
    + destruct Hin as [-> | Hin].
      * destruct Hx as (e & He). congruence.
      * destruct (IH Hin Hx) as (e & ->). now exists e.
    + now exists e.
Qed.

Lemma py_iter_truthy (v : value) (items : list value) :
  truthy v = true -> py_iter v = Ok items -> items <> [].
Proof.
  destruct v as [| b | z | f | s | l | kvs]; cbn [py_iter truthy]; try discriminate.
  - destruct s; [discriminate |]. intros _ H. inversion H. discriminate.
  - destruct l; [discriminate |]. intros _ H. inversion H. discriminate.
  - destruct kvs; [discriminate |]. intros _ H. inversion H. discriminate.
Qed.

(** X6.  [get_alerts] sends at most one request, the first of the
    invocation: a GET of
    [https://api.weather.gov/alerts/active/area/<state>], the state put in
    as it was given, with the User-Agent and Accept headers and the 30
    second timeout.  Its result depends on the network through the answer
    to that request alone. *)
Theorem get_alerts_one_request (rt : runtime) (net net' : network) (state : string) :
  let request :=
    {| req_url := VStr ("https://api.weather.gov/alerts/active/area/" ++ state);
       req_headers := [("User-Agent", "weather-app/1.0");
                       ("Accept", "application/geo+json")];
       req_timeout := 30 |} in
  net 0%nat request = net' 0%nat request ->
  get_alerts rt net state = get_alerts rt net' state.
Proof.
  intros request Hsame.
  unfold get_alerts.
  now rewrite (make_nws_request_same_answer net net' 0 (VStr (alerts_url state)) Hsame).
Qed.

Lemma get_alerts_one_request_witness :
  get_alerts example_runtime (serve not_found not_json) "CA"
  = get_alerts example_runtime (serve not_found (http_ok points_document)) "CA".
Proof.
  apply (get_alerts_one_request example_runtime
           (serve not_found not_json) (serve not_found (http_ok points_document)) "CA").
  reflexivity.
Defined.

(** X7.  A [features] member that is there but falsy, whatever its kind
    ([null], [false], [0], an empty string, list or object), gives
    "No active alerts for this state.". *)
Theorem get_alerts_falsy_features
  (rt : runtime) (net : network) (state : string)
  (kvs : list (string * value)) (features : value) :
  make_nws_request net 0 (VStr (alerts_url state)) = Ok (VDict kvs) ->
  dict_find "features" kvs = Some features ->
  truthy features = false ->
  get_alerts rt net state = Ok (VStr no_active_alerts).
Proof.
  intros Hfetch Hfeatures Hfalsy.
  unfold get_alerts. rewrite Hfetch. cbn [bind].
  rewrite (dict_find_truthy _ _ _ Hfeatures).
  cbn [negb py_contains py_getitem bind]. rewrite Hfeatures.
  cbn [negb bind]. now rewrite Hfalsy.
Qed.

Lemma get_alerts_falsy_features_witness :
  get_alerts example_runtime
    (serve (http_ok (VDict [("features", VNone)])) not_found) "CA"
  = Ok (VStr no_active_alerts).
Proof.
  apply (get_alerts_falsy_features example_runtime _ "CA"
           [("features", VNone)] VNone); reflexivity.
Defined.

(** X8.  One feature the formatter rejects spoils the whole report: when
    [features] is a list holding such a feature, [get_alerts] raises
    [AttributeError] and returns nothing, however many well-formed features
    surround it. *)
Theorem get_alerts_malformed_feature
  (rt : runtime) (net : network) (state : string)
  (kvs : list (string * value)) (features : list value) (bad : value) :
  make_nws_request net 0 (VStr (alerts_url state)) = Ok (VDict kvs) ->
  dict_find "features" kvs = Some (VList features) ->
  In bad features ->
  (forall text, format_alert rt bad <> Ok text) ->
  get_alerts rt net state = Raise AttributeError.
Proof.
  intros Hfetch Hfeatures Hin Hbad.
  assert (Hfails : exists e, format_alert rt bad = Raise e).
  { destruct (format_alert rt bad) as [text | e]; [now elim (Hbad text) | now exists e]. }
  destruct (comprehension_In_Raise (format_alert rt) features bad Hin Hfails) as (e & He).
  destruct (comprehension_Raise _ _ _ He) as (x & _ & Hx).
  apply format_alert_raises_AttributeError in Hx. subst e.
  unfold get_alerts. rewrite Hfetch. cbn [bind].
  rewrite (dict_find_truthy _ _ _ Hfeatures).
  cbn [negb py_contains py_getitem bind]. rewrite Hfeatures.
  destruct features as [| f fs]; [contradiction |].
  cbn [negb bind truthy py_iter]. now rewrite He.
Qed.

Lemma get_alerts_malformed_feature_witness :
  get_alerts example_runtime
    (serve (http_ok (VDict [("features",
                             VList [flood_warning; VDict [("properties", VNone)]])]))
           not_found)
    "CA"
  = Raise AttributeError.
Proof.
  apply (get_alerts_malformed_feature example_runtime _ "CA"
           [("features", VList [flood_warning; VDict [("properties", VNone)]])]
           [flood_warning; VDict [("properties", VNone)]]
           (VDict [("properties", VNone)])).
  - reflexivity.
  - reflexivity.
  - right. left. reflexivity.
  - intros text. discriminate.
Defined.

Lemma py_contains_raises_TypeError (key : string) (v : value) (e : exn) :
  py_contains key v = Raise e -> e = TypeError.
Proof.
  destruct v; cbn [py_contains]; try discriminate; intros H; now inversion H.
Qed.

Lemma py_iter_raises_TypeError (v : value) (e : exn) :
  py_iter v = Raise e -> e = TypeError.
Proof.
  destruct v; cbn [py_iter]; try discriminate; intros H; now inversion H.
Qed.

(** Subscripting by a key that [in] found: a [dict] has it; a [list] or a
    [str] that holds the key still takes no [str] subscript. *)
Lemma py_getitem_present_raises_TypeError (key : string) (v : value) (e : exn) :
  py_contains key v = Ok true -> py_getitem v key = Raise e -> e = TypeError.
Proof.
  destruct v as [| b | z | f | s | items | kvs]; cbn [py_contains py_getitem];
    try discriminate; try (intros _ H; now inversion H).
  destruct (dict_find key kvs); discriminate.
Qed.

(** X9.  Whatever the network answers, a value [get_alerts] returns is a
    string: one of its two messages, or the texts of one or more formatted
    features joined by the separator line.  It never returns [None]. *)
Theorem get_alerts_returns_text
  (rt : runtime) (net : network) (state : string) (v : value) :
  get_alerts rt net state = Ok v ->
  v = VStr alerts_unavailable \/
  v = VStr no_active_alerts \/
  (exists features texts,
      features <> [] /\
      Forall2 (fun feature text => format_alert rt feature = Ok text) features texts /\
      v = VStr (String.concat alerts_separator texts)).
Proof.
  unfold get_alerts.
  destruct (make_nws_request net 0 (VStr (alerts_url state))) as [data | e];
    cbn [bind]; [| discriminate].
  destruct (truthy data); cbn [negb bind].
  - destruct (py_contains "features" data) as [[|] | e]; cbn [negb bind];
      try discriminate.
    + destruct (py_getitem data "features") as [features | e]; cbn [bind];
        [| discriminate].
      destruct (truthy features) eqn:Htruthy; cbn [negb].
      * destruct (py_iter features) as [items | e] eqn:Hiter; cbn [bind];
          [| discriminate].
        destruct (comprehension (format_alert rt) items) as [texts | e] eqn:Htexts;
          cbn [bind]; [| discriminate].
        intros H. inversion H. right. right.
        exists items, texts. split; [| split].
        -- exact (py_iter_truthy _ _ Htruthy Hiter).
        -- now apply comprehension_Ok_Forall2.
        -- reflexivity.
      * intros H. inversion H. right. now left.
    + intros H. inversion H. now left.
  - intros H. inversion H. now left.
Qed.

Lemma get_alerts_returns_text_witness :
  VStr no_active_alerts = VStr alerts_unavailable \/
  VStr no_active_alerts = VStr no_active_alerts \/
  (exists features texts,
      features <> [] /\
      Forall2 (fun feature text => format_alert example_runtime feature = Ok text)
        features texts /\
      VStr no_active_alerts = VStr (String.concat alerts_separator texts)).
Proof.
  apply (get_alerts_returns_text example_runtime
           (serve (http_ok (VDict [("features", VList [])])) not_found) "CA").
  reflexivity.
Defined.

(** X10.  An exception that leaves [get_alerts] is one that left the
    fetcher, or a [TypeError] or an [AttributeError] met while reading the
    fetched document: reading the document never raises [KeyError], since
    [features] is only subscripted after [in] found it. *)
Theorem get_alerts_exceptions
  (rt : runtime) (net : network) (state : string) (e : exn) :
  get_alerts rt net state = Raise e ->
  make_nws_request net 0 (VStr (alerts_url state)) = Raise e \/
  (exists data, make_nws_request net 0 (VStr (alerts_url state)) = Ok data /\
                (e = TypeError \/ e = AttributeError)).
Proof.
  unfold get_alerts.
  destruct (make_nws_request net 0 (VStr (alerts_url state))) as [data | e'] eqn:Hfetch;
    cbn [bind].
  - intros He. right. exists data. split; [reflexivity |]. revert He.
    destruct (truthy data); cbn [negb bind]; [| discriminate].
    destruct (py_contains "features" data) as [[|] | e'] eqn:Hin; cbn [negb bind].
    + destruct (py_getitem data "features") as [features | e'] eqn:Hget; cbn [bind].
      * destruct (truthy features); cbn [negb]; [| discriminate].
        destruct (py_iter features) as [items | e'] eqn:Hiter; cbn [bind].
        -- destruct (comprehension (format_alert rt) items) as [texts | e'] eqn:Hc;
             cbn [bind]; [discriminate |].
           intros H. inversion H; subst e'.
           destruct (comprehension_Raise _ _ _ Hc) as (x & _ & Hx).
           right. exact (format_alert_raises_AttributeError _ _ _ Hx).
        -- intros H. inversion H; subst e'.
           left. exact (py_iter_raises_TypeError _ _ Hiter).
      * intros H. inversion H; subst e'.
        left. exact (py_getitem_present_raises_TypeError _ _ _ Hin Hget).
    + discriminate.
    + intros H. inversion H; subst e'.
      left. exact (py_contains_raises_TypeError _ _ _ Hin).
  - intros H. left. exact H.
Qed.

Lemma get_alerts_exceptions_witness :
  make_nws_request (serve (http_ok (VDict [("features", VInt 7)])) not_found)
    0 (VStr (alerts_url "CA"))
  = Raise TypeError \/
  (exists data,
      make_nws_request (serve (http_ok (VDict [("features", VInt 7)])) not_found)
        0 (VStr (alerts_url "CA"))
      = Ok data /\
      (TypeError = TypeError \/ TypeError = AttributeError)).
Proof.
  apply (get_alerts_exceptions example_runtime
           (serve (http_ok (VDict [("features", VInt 7)])) not_found) "CA").
  reflexivity.
Defined.

(* ================================================================== *)
(** ** Further properties of [get_forecast] *)
(* ================================================================== *)

Lemma py_getitem_raises (v : value) (key : string) (e : exn) :
  py_getitem v key = Raise e -> e = KeyError \/ e = TypeError.
Proof.
  destruct v as [| b | z | f | s | items | kvs]; cbn [py_getitem];
    try (intros H; inversion H; now right).
  destruct (dict_find key kvs); [discriminate |].
  intros H; inversion H; now left.
Qed.

Lemma format_period_not_object (rt : runtime) (period : value) :
  (forall fields, period <> VDict fields) ->
  format_period rt period = Raise TypeError.
Proof.
  intros Hnot. unfold format_period.
  destruct period as [| b | z | f | s | items | fields]; try reflexivity.
  now elim (Hnot fields).
Qed.

Lemma format_period_missing_key (rt : runtime) (fields : list (string * value))
  (key : string) :
  In key period_keys ->
  dict_find key fields = None ->
  format_period rt (VDict fields) = Raise KeyError.
Proof.
  intros Hin Hmissing. unfold format_period. cbn [py_getitem].
  unfold period_keys in Hin. cbn [In] in Hin.
  destruct (dict_find "name" fields) eqn:H1; cbn [bind]; [| reflexivity].
  destruct (dict_find "temperature" fields) eqn:H2; cbn [bind]; [| reflexivity].
  destruct (dict_find "temperatureUnit" fields) eqn:H3; cbn [bind]; [| reflexivity].
  destruct (dict_find "windSpeed" fields) eqn:H4; cbn [bind]; [| reflexivity].
  destruct (dict_find "windDirection" fields) eqn:H5; cbn [bind]; [| reflexivity].
  destruct (dict_find "detailedForecast" fields) eqn:H6; cbn [bind]; [| reflexivity].
  destruct Hin as [<- | [<- | [<- | [<- | [<- | [<- | []]]]]]]; congruence.
Qed.

Lemma format_period_raises (rt : runtime) (period : value) (e : exn) :
  format_period rt period = Raise e -> e = KeyError \/ e = TypeError.
Proof.
  unfold format_period.
  repeat match goal with
         | |- bind (py_getitem ?v ?k) _ = _ -> _ =>
             let H := fresh "H" in
             destruct (py_getitem v k) eqn:H; cbn [bind];
             [| intros H'; inversion H'; subst; exact (py_getitem_raises _ _ _ H)]
         end.
  discriminate.
Qed.

(** X11.  A period is rendered exactly when it is an object holding all six
    keys [name], [temperature], [temperatureUnit], [windSpeed],
    [windDirection] and [detailedForecast]; an object missing one of them
    raises [KeyError], and a period that is no object raises [TypeError]:
    no placeholder stands in for a missing period field. *)
Theorem format_period_domain (rt : runtime) (period : value) :
  ((exists text, format_period rt period = Ok text) <->
   (exists fields, period = VDict fields /\
                   Forall (fun key => dict_find key fields <> None) period_keys)) /\
  (forall fields key, period = VDict fields -> In key period_keys ->
                      dict_find key fields = None ->
                      format_period rt period = Raise KeyError) /\
  ((forall fields, period <> VDict fields) -> format_period rt period = Raise TypeError).
Proof.
  split; [| split].
  - split.
    + intros (text & Htext).
      destruct period as [| b | z | f | s | items | fields]; try discriminate.
      exists fields. split; [reflexivity |].
      apply Forall_forall. intros key Hin Hmissing.
      rewrite (format_period_missing_key rt fields key Hin Hmissing) in Htext.
      discriminate.
    + intros (fields & -> & Hall).
      unfold period_keys in Hall.
      repeat match goal with
             | H : Forall _ (_ :: _) |- _ => inversion H; clear H; subst
             end.
      destruct (dict_find "name" fields) as [n |] eqn:E1; [| congruence].
      destruct (dict_find "temperature" fields) as [t |] eqn:E2; [| congruence].
      destruct (dict_find "temperatureUnit" fields) as [u |] eqn:E3; [| congruence].
      destruct (dict_find "windSpeed" fields) as [ws |] eqn:E4; [| congruence].
      destruct (dict_find "windDirection" fields) as [wd |] eqn:E5; [| congruence].
      destruct (dict_find "detailedForecast" fields) as [df |] eqn:E6; [| congruence].
      eexists. exact (format_period_template rt fields n t u ws wd df E1 E2 E3 E4 E5 E6).
  - intros fields key -> Hin Hmissing.
    exact (format_period_missing_key rt fields key Hin Hmissing).
  - apply format_period_not_object.
Qed.

Lemma format_period_domain_witness :
  format_period example_runtime (VDict [("name", VStr "Tonight")]) = Raise KeyError.
Proof.
  apply (proj1 (proj2 (format_period_domain example_runtime
                         (VDict [("name", VStr "Tonight")])))
           [("name", VStr "Tonight")] "windSpeed").
  - reflexivity.
  - cbn [period_keys In]. tauto.
  - reflexivity.
Defined.

(** X12.  With both fetches through and a non-empty list of periods, the
    first period alone decides the outcome: its rendering is returned, or
    the exception it meets leaves the handler.  The periods after it are
    neither rendered nor checked. *)
Theorem get_forecast_first_period_decides
  (rt : runtime) (net : network) (latitude longitude : spec_float)
  (forecast_data properties period : value) (rest : list value) :
  forecast_document rt net latitude longitude forecast_data ->
  py_getitem forecast_data "properties" = Ok properties ->
  py_getitem properties "periods" = Ok (VList (period :: rest)) ->
  get_forecast rt net latitude longitude
  = match format_period rt period with
    | Ok text => Ok (VStr text)
    | Raise e => Raise e
    end.
Proof.
  intros Hdoc Hprops Hperiods.
  rewrite (get_forecast_after_fetches _ _ _ _ _ Hdoc).
  unfold render_periods.
  rewrite Hprops. cbn [bind]. rewrite Hperiods.
  cbn [bind py_slice5 firstn py_iter].
  rewrite for_each_forecast_body_first.
  unfold forecast_body.
  destruct (format_period rt period); reflexivity.
Qed.

Lemma get_forecast_first_period_decides_witness :
  get_forecast example_runtime
    (serve (http_ok points_document)
           (http_ok (forecast_of [VDict [("name", VStr "Tonight")]; tomorrow])))
    zero zero
  = Raise KeyError.
Proof.
  apply (get_forecast_first_period_decides example_runtime _ zero zero
           (forecast_of [VDict [("name", VStr "Tonight")]; tomorrow])
           (VDict [("periods", VList [VDict [("name", VStr "Tonight")]; tomorrow])])
           (VDict [("name", VStr "Tonight")]) [tomorrow]).
  - apply example_forecast_document.
  - reflexivity.
  - reflexivity.
Defined.

Lemma py_slice5_raises (rt : runtime) (v : value) (e : exn) :
  py_slice5 rt v = Raise e -> e = TypeError \/ e = dict_slice_error rt.
Proof.
  destruct v; cbn [py_slice5]; try discriminate; intros H; inversion H; auto.
Qed.

Lemma substring_empty (n : nat) (s : string) :
  String.substring 0 (S n) s = "" -> s = "".
Proof. destruct s; [reflexivity | discriminate]. Qed.

(** The first five of [periods] hold nothing to visit only when [periods]
    is an empty list or an empty string. *)
Lemma first_five_empty (rt : runtime) (periods first_five : value) :
  py_slice5 rt periods = Ok first_five ->
  py_iter first_five = Ok [] ->
  periods = VList [] \/ periods = VStr "".
Proof.
  destruct periods as [| b | z | f | s | items | kvs]; cbn [py_slice5];
    try discriminate; intros H; inversion H; subst first_five; cbn [py_iter]; intros Hi.
  - right. f_equal. apply (substring_empty 4).
    destruct (String.substring 0 5 s); [reflexivity | discriminate].
  - left. destruct items; [reflexivity | discriminate].
Qed.

(** A first item that renders was the first element of a list: the
    characters of a string do not render. *)
Lemma first_five_renders (rt : runtime) (periods first_five period : value)
  (others : list value) (text : string) :
  py_slice5 rt periods = Ok first_five ->
  py_iter first_five = Ok (period :: others) ->
  format_period rt period = Ok text ->
  exists rest, periods = VList (period :: rest).
Proof.
  destruct periods as [| b | z | f | s | items | kvs]; cbn [py_slice5];
    try discriminate; intros H; inversion H; subst first_five; cbn [py_iter]; intros Hi.
  - destruct (list_ascii_of_string (String.substring 0 5 s)) as [| c chars];
      cbn [map] in Hi; [discriminate |].
    inversion Hi; subst period. discriminate.
  - destruct items as [| item rest]; cbn [firstn] in Hi; [discriminate |].
    inversion Hi; subst item. intros _. now exists rest.
Qed.

(** How lines 103-117 end, by what [properties.periods] holds. *)
Lemma render_periods_cases (rt : runtime) (forecast_data : value) :
  (render_periods rt forecast_data = Ok VNone /\
   exists properties periods,
     py_getitem forecast_data "properties" = Ok properties /\
     py_getitem properties "periods" = Ok periods /\
     (periods = VList [] \/ periods = VStr "")) \/
  (exists properties periods first_five period others,
     py_getitem forecast_data "properties" = Ok properties /\
     py_getitem properties "periods" = Ok periods /\
     py_slice5 rt periods = Ok first_five /\
     py_iter first_five = Ok (period :: others) /\
     render_periods rt forecast_data
     = match format_period rt period with
       | Ok text => Ok (VStr text)
       | Raise e => Raise e
       end) \/
  (exists e, render_periods rt forecast_data = Raise e /\
             (e = KeyError \/ e = TypeError \/ e = dict_slice_error rt)).
Proof.
  unfold render_periods.
  destruct (py_getitem forecast_data "properties") as [properties | e] eqn:Hprops;
    cbn [bind].
  2:{ right. right. exists e. split; [reflexivity |].
      destruct (py_getitem_raises _ _ _ Hprops); auto. }
  destruct (py_getitem properties "periods") as [periods | e] eqn:Hperiods; cbn [bind].
  2:{ right. right. exists e. split; [reflexivity |].
      destruct (py_getitem_raises _ _ _ Hperiods); auto. }
  destruct (py_slice5 rt periods) as [first_five | e] eqn:Hslice; cbn [bind].
  2:{ right. right. exists e. split; [reflexivity |].
      destruct (py_slice5_raises _ _ _ Hslice); auto. }
  destruct (py_iter first_five) as [items | e] eqn:Hiter; cbn [bind].
  2:{ right. right. exists e. split; [reflexivity |].
      right. left. exact (py_iter_raises_TypeError _ _ Hiter). }
  destruct items as [| period others].
  - left. split; [reflexivity |].
    exists properties, periods. repeat split; try assumption.
    exact (first_five_empty rt periods first_five Hslice Hiter).
  - right. left. exists properties, periods, first_five, period, others.
    repeat split; try assumption.
    rewrite for_each_forecast_body_first. unfold forecast_body.
    destruct (format_period rt period); reflexivity.
Qed.

(** How [get_forecast] ends before line 103, or that it reaches it. *)
Lemma get_forecast_cases (rt : runtime) (net : network) (latitude longitude : spec_float) :
  get_forecast rt net latitude longitude = Ok (VStr points_unavailable) \/
  get_forecast rt net latitude longitude = Ok (VStr forecast_unavailable) \/
  (exists e, get_forecast rt net latitude longitude = Raise e /\
             (make_nws_request net 0 (VStr (points_url rt latitude longitude)) = Raise e \/
              (exists forecast_url, make_nws_request net 1 forecast_url = Raise e) \/
              e = KeyError \/ e = TypeError)) \/
  (exists forecast_data,
     forecast_document rt net latitude longitude forecast_data /\
     get_forecast rt net latitude longitude = render_periods rt forecast_data).
Proof.
  unfold get_forecast.
  destruct (make_nws_request net 0 (VStr (points_url rt latitude longitude)))
    as [points_data | e] eqn:Hpoints; cbn [bind].
  2:{ right. right. left. exists e. split; [reflexivity | now left]. }
  destruct (truthy points_data) eqn:Htruthy; cbn [negb]; [| now left].
  destruct (py_getitem points_data "properties") as [properties | e] eqn:Hprops;
    cbn [bind].
  2:{ right. right. left. exists e. split; [reflexivity |].
      destruct (py_getitem_raises _ _ _ Hprops); auto. }
  destruct (py_getitem properties "forecast") as [forecast_url | e] eqn:Hurl; cbn [bind].
  2:{ right. right. left. exists e. split; [reflexivity |].
      destruct (py_getitem_raises _ _ _ Hurl); auto. }
  destruct (make_nws_request net 1 forecast_url) as [forecast_data | e] eqn:Hdoc;
    cbn [bind].
  2:{ right. right. left. exists e. split; [reflexivity |].
      right. left. now exists forecast_url. }
  destruct (truthy forecast_data) eqn:Husable; cbn [negb]; [| right; now left].
  right. right. right. exists forecast_data. split.
  - exists points_data, properties, forecast_url. repeat split; assumption.
  - reflexivity.
Qed.

(** X13.  A value [get_forecast] returns is one of its two messages,
    [None], or the rendering of the first period of the fetched list of
    periods, and of that period alone: it never returns a report of several
    periods. *)
Theorem get_forecast_returns
  (rt : runtime) (net : network) (latitude longitude : spec_float) (v : value) :
  get_forecast rt net latitude longitude = Ok v ->
  v = VStr points_unavailable \/
  v = VStr forecast_unavailable \/
  v = VNone \/
  (exists forecast_data properties period rest text,
      forecast_document rt net latitude longitude forecast_data /\
      py_getitem forecast_data "properties" = Ok properties /\
      py_getitem properties "periods" = Ok (VList (period :: rest)) /\
      format_period rt period = Ok text /\
      v = VStr text).
Proof.
  intros Hv.
  destruct (get_forecast_cases rt net latitude longitude)
    as [H | [H | [(e & H & _) | (forecast_data & Hdoc & H)]]];
    rewrite H in Hv.
  - inversion Hv. now left.
  - inversion Hv. right. now left.
  - discriminate.
  - destruct (render_periods_cases rt forecast_data)
      as [[H' _]
         | [(properties & periods & first_five & period & others
             & Hprops & Hperiods & Hslice & Hiter & H')
           | (e & H' & _)]];
      rewrite H' in Hv.
    + inversion Hv. right. right. now left.
    + destruct (format_period rt period) as [text |] eqn:Htext; [| discriminate].
      inversion Hv.
      destruct (first_five_renders rt periods first_five period others text
                  Hslice Hiter Htext) as (rest & ->).
      right. right. right.
      exists forecast_data, properties, period, rest, text. auto.
    + discriminate.
Qed.

Lemma get_forecast_returns_witness :
  VStr (spec_period_template "Tonight" "54" "F" "5 mph" "NW" "Clear." ++ nl)
  = VStr points_unavailable \/
  VStr (spec_period_template "Tonight" "54" "F" "5 mph" "NW" "Clear." ++ nl)
  = VStr forecast_unavailable \/
  VStr (spec_period_template "Tonight" "54" "F" "5 mph" "NW" "Clear." ++ nl) = VNone \/
  (exists forecast_data properties period rest text,
      forecast_document example_runtime
        (serve (http_ok points_document) (http_ok (forecast_of [tonight; tomorrow])))
        zero zero forecast_data /\
      py_getitem forecast_data "properties" = Ok properties /\
      py_getitem properties "periods" = Ok (VList (period :: rest)) /\
      format_period example_runtime period = Ok text /\
      VStr (spec_period_template "Tonight" "54" "F" "5 mph" "NW" "Clear." ++ nl)
      = VStr text).
Proof.
  apply (get_forecast_returns example_runtime
           (serve (http_ok points_document) (http_ok (forecast_of [tonight; tomorrow])))
           zero zero).
  reflexivity.
Defined.

(** X14.  [get_forecast] returns [None] exactly when both fetches went
    through and [properties.periods] is an empty list or an empty string:
    in no other case does it return without a string. *)
Theorem get_forecast_None_iff
  (rt : runtime) (net : network) (latitude longitude : spec_float) :
  get_forecast rt net latitude longitude = Ok VNone <->
  exists forecast_data properties periods,
    forecast_document rt net latitude longitude forecast_data /\
    py_getitem forecast_data "properties" = Ok properties /\
    py_getitem properties "periods" = Ok periods /\
    (periods = VList [] \/ periods = VStr "").
Proof.
  split.
  - intros Hv.
    destruct (get_forecast_cases rt net latitude longitude)
      as [H | [H | [(e & H & _) | (forecast_data & Hdoc & H)]]];
      rewrite H in Hv; try discriminate.
    destruct (render_periods_cases rt forecast_data)
      as [[_ (properties & periods & Hp & Hq & Hempty)]
         | [(properties & periods & first_five & period & others & _ & _ & _ & _ & H')
           | (e & H' & _)]].
    + now exists forecast_data, properties, periods.
    + rewrite H' in Hv. destruct (format_period rt period); discriminate.
    + rewrite H' in Hv. discriminate.
  - intros (forecast_data & properties & periods & Hdoc & Hprops & Hperiods & Hempty).
    rewrite (get_forecast_after_fetches _ _ _ _ _ Hdoc).
    unfold render_periods. rewrite Hprops. cbn [bind]. rewrite Hperiods.
    destruct Hempty as [-> | ->]; reflexivity.
Qed.

Lemma get_forecast_None_iff_witness :
  get_forecast example_runtime
    (serve (http_ok points_document)
           (http_ok (VDict [("properties", VDict [("periods", VStr "")])])))
    zero zero
  = Ok VNone.
Proof.
  apply (proj2 (get_forecast_None_iff example_runtime
                  (serve (http_ok points_document)
                         (http_ok (VDict [("properties", VDict [("periods", VStr "")])])))
                  zero zero)).
  exists (VDict [("properties", VDict [("periods", VStr "")])]),
    (VDict [("periods", VStr "")]), (VStr "").
  split; [| split; [reflexivity | split; [reflexivity | now right]]].
  exists points_document,
    (VDict [("forecast", VStr "https://api.weather.gov/gridpoints/X/1,2/forecast")]),
    (VStr "https://api.weather.gov/gridpoints/X/1,2/forecast").
  repeat split; reflexivity.
Defined.

(** X15.  An exception that leaves [get_forecast] is one that left one of
    its two fetcher calls, or a [KeyError] or a [TypeError] met while
    reading a fetched document (slicing a [dict] raises one of the two,
    by the interpreter's version). *)
Theorem get_forecast_exceptions
  (rt : runtime) (net : network) (latitude longitude : spec_float) (e : exn) :
  dict_slice_error rt = TypeError \/ dict_slice_error rt = KeyError ->
  get_forecast rt net latitude longitude = Raise e ->
  make_nws_request net 0 (VStr (points_url rt latitude longitude)) = Raise e \/
  (exists forecast_url, make_nws_request net 1 forecast_url = Raise e) \/
  e = KeyError \/ e = TypeError.
Proof.
  intros Hslice He.
  destruct (get_forecast_cases rt net latitude longitude)
    as [H | [H | [(e' & H & Hclass) | (forecast_data & _ & H)]]];
    rewrite H in He; try discriminate.
  - inversion He; subst e'. exact Hclass.
  - right. right.
    destruct (render_periods_cases rt forecast_data)
      as [[H' _]
         | [(properties & periods & first_five & period & others & _ & _ & _ & _ & H')
           | (e' & H' & Hclass)]];
      rewrite H' in He; try discriminate.
    + destruct (format_period rt period) as [text | e'] eqn:Hperiod; [discriminate |].
      inversion He; subst e'.
      exact (format_period_raises _ _ _ Hperiod).
    + inversion He; subst e'.
      destruct Hclass as [-> | [-> | ->]]; auto.
      destruct Hslice as [-> | ->]; auto.
Qed.

Lemma get_forecast_exceptions_witness :
  make_nws_request (serve (http_ok points_document) (http_ok (forecast_of [VNone])))
    0 (VStr (points_url example_runtime zero zero))
  = Raise TypeError \/
  (exists forecast_url,
      make_nws_request (serve (http_ok points_document) (http_ok (forecast_of [VNone])))
        1 forecast_url
      = Raise TypeError) \/
  TypeError = KeyError \/ TypeError = TypeError.
Proof.
  apply (get_forecast_exceptions example_runtime
           (serve (http_ok points_document) (http_ok (forecast_of [VNone]))) zero zero).
  - left. reflexivity.
  - reflexivity.
Defined.

(** X16.  [get_forecast] sends at most two requests: first a GET of
    [https://api.weather.gov/points/<latitude>,<longitude>], then a GET of
    the value found at [properties.forecast] of the answer, passed on as it
    is; both carry the User-Agent and Accept headers and the 30 second
    timeout.  Its result depends on the network through the answers to
    these two requests alone. *)
Theorem get_forecast_two_requests
  (rt : runtime) (net net' : network) (latitude longitude : spec_float) :
  let headers := [("User-Agent", "weather-app/1.0"); ("Accept", "application/geo+json")] in
  let first :=
    {| req_url := VStr ("https://api.weather.gov/points/" ++ float_repr rt latitude
                          ++ "," ++ float_repr rt longitude);
       req_headers := headers;
       req_timeout := 30 |} in
  net 0%nat first = net' 0%nat first ->
  (forall points_data properties forecast_url,
      make_nws_request net 0 (VStr (points_url rt latitude longitude)) = Ok points_data ->
      py_getitem points_data "properties" = Ok properties ->
      py_getitem properties "forecast" = Ok forecast_url ->
      let second :=
        {| req_url := forecast_url; req_headers := headers; req_timeout := 30 |} in
      net 1%nat second = net' 1%nat second) ->
  get_forecast rt net latitude longitude = get_forecast rt net' latitude longitude.
Proof.
  intros headers first Hfirst Hsecond.
  unfold get_forecast.
  rewrite <- (make_nws_request_same_answer net net' 0
                (VStr (points_url rt latitude longitude)) Hfirst).
  destruct (make_nws_request net 0 (VStr (points_url rt latitude longitude)))
    as [points_data | e] eqn:Hpoints; cbn [bind]; [| reflexivity].
  destruct (negb (truthy points_data)); [reflexivity |].
  destruct (py_getitem points_data "properties") as [properties | e] eqn:Hprops;
    cbn [bind]; [| reflexivity].
  destruct (py_getitem properties "forecast") as [forecast_url | e] eqn:Hurl;
    cbn [bind]; [| reflexivity].
  now rewrite (make_nws_request_same_answer net net' 1 forecast_url
                 (Hsecond points_data properties forecast_url eq_refl Hprops Hurl)).
Qed.

Lemma get_forecast_two_requests_witness :
  get_forecast example_runtime (serve (http_ok points_document) not_json) zero zero
  = get_forecast example_runtime
      (fun k _ => match k with
                  | O => http_ok points_document
                  | S O => not_json
                  | S (S _) => http_ok (forecast_of [tonight])
                  end)
      zero zero.
Proof.
  apply (get_forecast_two_requests example_runtime
           (serve (http_ok points_document) not_json)
           (fun k _ => match k with
                       | O => http_ok points_document
                       | S O => not_json
                       | S (S _) => http_ok (forecast_of [tonight])
                       end)
           zero zero).
  - reflexivity.
  - intros points_data properties forecast_url _ _ _. reflexivity.
Defined.

(** X17.  A fetched document that is falsy without being [None] (an empty
    object or list, [0], [false], an empty string) is treated like a failed
    fetch: for the points document the handler returns "Unable to fetch
    forecast data for this location.", for the forecast document "Unable to
    fetch detailed forecast.". *)
Theorem get_forecast_falsy_documents
  (rt : runtime) (net : network) (latitude longitude : spec_float) :
  (forall points_data,
      make_nws_request net 0 (VStr (points_url rt latitude longitude)) = Ok points_data ->
      truthy points_data = false ->
      get_forecast rt net latitude longitude = Ok (VStr points_unavailable)) /\
  (forall points_data properties forecast_url forecast_data,
      make_nws_request net 0 (VStr (points_url rt latitude longitude)) = Ok points_data ->
      py_getitem points_data "properties" = Ok properties ->
      py_getitem properties "forecast" = Ok forecast_url ->
      make_nws_request net 1 forecast_url = Ok forecast_data ->
      truthy forecast_data = false ->
      get_forecast rt net latitude longitude = Ok (VStr forecast_unavailable)).
Proof.
  split.
  - intros points_data Hpoints Hfalsy.
    unfold get_forecast. rewrite Hpoints. cbn [bind]. now rewrite Hfalsy.
  - intros points_data properties forecast_url forecast_data
      Hpoints Hprops Hurl Hdoc Hfalsy.
    unfold get_forecast. rewrite Hpoints. cbn [bind].
    rewrite (py_getitem_truthy _ _ _ Hprops). cbn [negb].
    rewrite Hprops. cbn [bind]. rewrite Hurl. cbn [bind]. rewrite Hdoc. cbn [bind].
    now rewrite Hfalsy.
Qed.

Lemma get_forecast_falsy_documents_witness :
  get_forecast example_runtime (serve (http_ok (VList [])) not_found) zero zero
  = Ok (VStr points_unavailable) /\
  get_forecast example_runtime (serve (http_ok points_document) (http_ok (VDict [])))
    zero zero
  = Ok (VStr forecast_unavailable).
Proof.
  split.
  - apply (proj1 (get_forecast_falsy_documents example_runtime
                    (serve (http_ok (VList [])) not_found) zero zero) (VList []));
      reflexivity.
  - apply (proj2 (get_forecast_falsy_documents example_runtime
                    (serve (http_ok points_document) (http_ok (VDict []))) zero zero)
             points_document
             (VDict [("forecast", VStr "https://api.weather.gov/gridpoints/X/1,2/forecast")])
             (VStr "https://api.weather.gov/gridpoints/X/1,2/forecast")
             (VDict []));
      reflexivity.
Defined.

(** X18.  With both fetches through, a forecast document that leaves out
    [properties.periods] (no [properties] member, or a [properties] object
    without [periods]) makes [get_forecast] fail with [KeyError], and a
    [properties] member that is no object makes it fail with [TypeError]:
    no message stands in for the missing periods. *)
Theorem get_forecast_missing_periods
  (rt : runtime) (net : network) (latitude longitude : spec_float)
  (kvs : list (string * value)) :
  forecast_document rt net latitude longitude (VDict kvs) ->
  (dict_find "properties" kvs = None \/
   (exists props, dict_find "properties" kvs = Some (VDict props) /\
                  dict_find "periods" props = None) ->
   get_forecast rt net latitude longitude = Raise KeyError) /\
  (forall v, dict_find "properties" kvs = Some v ->
             (forall props, v <> VDict props) ->
             get_forecast rt net latitude longitude = Raise TypeError).
Proof.
  intros Hdoc.
  rewrite (get_forecast_after_fetches _ _ _ _ _ Hdoc).
  unfold render_periods. cbn [py_getitem].
  split.
  - intros [Hprops | (props & Hprops & Hperiods)]; rewrite Hprops; cbn [bind py_getitem].
    + reflexivity.
    + now rewrite Hperiods.
  - intros v Hprops Hnot. rewrite Hprops. cbn [bind].
    destruct v as [| b | z | f | s | items | props]; try reflexivity.
    now elim (Hnot props).
Qed.

Lemma get_forecast_missing_periods_witness :
  get_forecast example_runtime
    (serve (http_ok points_document) (http_ok (VDict [("properties", VDict [])])))
    zero zero
  = Raise KeyError.
Proof.
  apply (proj1 (get_forecast_missing_periods example_runtime
                  (serve (http_ok points_document)
                         (http_ok (VDict [("properties", VDict [])])))
                  zero zero [("properties", VDict [])]
                  (ex_intro _ points_document
                     (ex_intro _
                        (VDict [("forecast",
                                 VStr "https://api.weather.gov/gridpoints/X/1,2/forecast")])
                        (ex_intro _
                           (VStr "https://api.weather.gov/gridpoints/X/1,2/forecast")
                           (conj eq_refl (conj eq_refl (conj eq_refl
                              (conj eq_refl eq_refl))))))))).
  right. exists []. split; reflexivity.
Defined.

(* ================================================================== *)
(** ** Documents of an unexpected kind *)
(* ================================================================== *)

(** X19.  The fetcher returns [None] exactly when the request raised an
    [Exception], was answered with a status outside 2xx, or was answered
    with a 2xx status and a body that decodes to [null] or whose decoding
    raised an [Exception]: a [null] body cannot be told from a failure. *)
Theorem make_nws_request_None_iff (net : network) (k : nat) (url : value) :
  make_nws_request net k url = Ok VNone <->
  (exists e, net k (nws_request url) = Raise e /\ is_Exception e = true) \/
  (exists r, net k (nws_request url) = Ok r /\ ~ 200 <= status_code r <= 299) \/
  (exists r, net k (nws_request url) = Ok r /\ 200 <= status_code r <= 299 /\
             (json r = Ok VNone \/
              exists e, json r = Raise e /\ is_Exception e = true)).
Proof.
  unfold make_nws_request. split.
  - destruct (net k (nws_request url)) as [r | e] eqn:Hnet;
      cbn [bind try_except_Exception].
    + destruct (raise_for_status_cases r) as [[Hst ->] | [Hst ->]];
        cbn [bind try_except_Exception is_Exception].
      * destruct (json r) as [w | e] eqn:Hjson; cbn [try_except_Exception].
        -- intros H. inversion H; subst w.
           right. right. exists r. auto.
        -- destruct (is_Exception e) eqn:Hclass; [| discriminate].
           intros _. right. right. exists r. repeat split; try tauto.
           right. now exists e.
      * intros _. right. left. now exists r.
    + destruct (is_Exception e) eqn:Hclass; [| discriminate].
      intros _. left. now exists e.
  - intros [(e & Hnet & Hclass) | [(r & Hnet & Hst) | (r & Hnet & Hst & Hjson)]];
      rewrite Hnet; cbn [bind try_except_Exception].
    + now rewrite Hclass.
    + destruct (raise_for_status_cases r) as [[Hst' _] | [_ ->]]; [contradiction |].
      reflexivity.
    + rewrite (raise_for_status_Ok r Hst). cbn [bind].
      destruct Hjson as [-> | (e & -> & Hclass)]; cbn [try_except_Exception].
      * reflexivity.
      * now rewrite Hclass.
Qed.

Lemma make_nws_request_None_iff_witness :
  make_nws_request (serve (http_ok VNone) not_found) 0 (VStr "u") = Ok VNone.
Proof.
  apply (proj2 (make_nws_request_None_iff (serve (http_ok VNone) not_found) 0 (VStr "u"))).
  right. right. exists {| status_code := 200; json := Ok VNone |}.
  split; [reflexivity | split; [cbn [status_code]; lia | now left]].
Defined.

(** X20.  A [features] member that is truthy but no list never yields a
    report: a number or [true] cannot be iterated and raises [TypeError]; a
    string or an object is iterated, and its first character or key, being
    a string, makes the formatter raise [AttributeError]. *)
Theorem get_alerts_features_not_a_list
  (rt : runtime) (net : network) (state : string)
  (kvs : list (string * value)) (features : value) :
  make_nws_request net 0 (VStr (alerts_url state)) = Ok (VDict kvs) ->
  dict_find "features" kvs = Some features ->
  truthy features = true ->
  (forall items, features <> VList items) ->
  get_alerts rt net state
  = Raise (match features with
           | VStr _ | VDict _ => AttributeError
           | _ => TypeError
           end).
Proof.
  intros Hfetch Hfeatures Htruthy Hnot.
  unfold get_alerts. rewrite Hfetch. cbn [bind].
  rewrite (dict_find_truthy _ _ _ Hfeatures).
  cbn [negb py_contains py_getitem bind]. rewrite Hfeatures.
  cbn [negb bind]. rewrite Htruthy. cbn [negb].
  destruct features as [| b | z | f | s | items | fkvs]; try reflexivity.
  - destruct s; [discriminate Htruthy | reflexivity].
  - now elim (Hnot items).
  - destruct fkvs; [discriminate Htruthy | reflexivity].
Qed.

Lemma get_alerts_features_not_a_list_witness :
  get_alerts example_runtime
    (serve (http_ok (VDict [("features", VStr "none")])) not_found) "CA"
  = Raise AttributeError.
Proof.
  apply (get_alerts_features_not_a_list example_runtime _ "CA"
           [("features", VStr "none")] (VStr "none")).
  - reflexivity.
  - reflexivity.
  - reflexivity.
  - intros items. discriminate.
Defined.

(** X21.  When the fetched document is no object, [get_alerts] returns
    "Unable to fetch alerts or no alerts found." or raises [TypeError]; it
    never reports alerts.  The message is returned when the document is
    falsy, or is a list or string that does not hold "features"; a truthy
    number or boolean, and a list or string that does hold it, raise. *)
Theorem get_alerts_not_an_object
  (rt : runtime) (net : network) (state : string) (data : value) :
  make_nws_request net 0 (VStr (alerts_url state)) = Ok data ->
  (forall kvs, data <> VDict kvs) ->
  get_alerts rt net state
  = if negb (truthy data) then Ok (VStr alerts_unavailable)
    else match py_contains "features" data with
         | Ok false => Ok (VStr alerts_unavailable)
         | _ => Raise TypeError
         end.
Proof.
  intros Hfetch Hnot.
  unfold get_alerts. rewrite Hfetch. cbn [bind].
  destruct (negb (truthy data)); [reflexivity |].
  destruct data as [| b | z | f | s | items | kvs]; cbn [py_contains bind];
    try reflexivity.
  - destruct (is_substring "features" s); reflexivity.
  - destruct (existsb _ items); reflexivity.
  - now elim (Hnot kvs).
Qed.

Lemma get_alerts_not_an_object_witness :
  get_alerts example_runtime
    (serve (http_ok (VList [VStr "features"])) not_found) "CA"
  = Raise TypeError.
Proof.
  apply (get_alerts_not_an_object example_runtime _ "CA" (VList [VStr "features"])).
  - reflexivity.
  - intros kvs. discriminate.
Defined.
